(** * health_check.py: the environment health check, embedded and verified

    The script runs eight probes in a fixed order (interpreter version, five
    imports, the ollama CLI with an HTTP fallback, an in-memory SQLite round
    trip), turns each outcome into a [{name, status, details}] dict and
    prints the list as one JSON report.

    The embedding follows the source function by function.  Everything the
    script asks of its surroundings (the interpreter version, [import_module],
    [subprocess.run], [urlopen], [sqlite3]) is a field of an environment
    record; a call either returns a value or raises a Python exception, and
    every external call is logged, so that "the HTTP probe was executed" is a
    statement about the log.

    Modelling limits, stated once:
    - a Python [str] is a [string] of code points below 256 (Latin-1);
      [strip] and [lower] follow [str.strip] and [str.lower] on that range
      (the escapes of the JSON encoder are given for every code point);
    - an exception is its class, its message and two attributes; the classes
      are those the probes can meet, down from [BaseException], so that an
      [except Exception] clause lets a [SystemExit] or [KeyboardInterrupt]
      through;
    - [main] logs the report as the object it hands to [json.dumps]; the text
      printed for it is given separately, by [print_report]; writing it to
      standard output is taken to succeed. *)

From Stdlib Require Import String Ascii List ZArith Bool Lia DecimalString.
Import ListNotations.
Local Open Scope string_scope.
Local Open Scope Z_scope.

(** ** Python strings *)

Module PyStr.

(** [str.isspace] on one character, for code points below 256:
    U+0009..U+000D, U+001C..U+0020, U+0085 and U+00A0. *)
Definition isspace (c : ascii) : bool :=
  let n := N_of_ascii c in
  ((9 <=? n) && (n <=? 13) || (28 <=? n) && (n <=? 32)
   || (n =? 133) || (n =? 160))%N.

(** [str.lower] on one character, for code points below 256: A..Z and the
    Latin-1 capitals U+00C0..U+00DE (the multiplication sign U+00D7
    excepted) move up by 32. *)
Definition lower_char (c : ascii) : ascii :=
  let n := N_of_ascii c in
  if ((65 <=? n) && (n <=? 90)
      || (192 <=? n) && (n <=? 222) && negb (n =? 215))%N
  then ascii_of_N (n + 32) else c.

Fixpoint lower (s : string) : string :=
  match s with
  | EmptyString => EmptyString
  | String c s' => String (lower_char c) (lower s')
  end.

Fixpoint lstrip (s : string) : string :=
  match s with
  | EmptyString => EmptyString
  | String c s' => if isspace c then lstrip s' else s
  end.

Fixpoint rstrip (s : string) : string :=
  match s with
  | EmptyString => EmptyString
  | String c s' =>
      match rstrip s' with
      | EmptyString => if isspace c then EmptyString else String c EmptyString
      | r => String c r
      end
  end.

(** [s.strip()] *)
Definition strip (s : string) : string := rstrip (lstrip s).

(** [x or y] on two strings: the empty string is the only falsy one. *)
Definition or_ (x y : string) : string :=
  match x with
  | EmptyString => y
  | _ => x
  end.

(** [needle in hay] *)
Fixpoint contains (needle hay : string) : bool :=
  prefix needle hay
  || match hay with
     | EmptyString => false
     | String _ hay' => contains needle hay'
     end.

(** [sep.join(parts)] *)
Definition join (sep : string) (parts : list string) : string :=
  String.concat sep parts.

(** [str(n)] for an int, as an f-string renders it. *)
Definition of_int (n : Z) : string := NilZero.string_of_int (Z.to_int n).

(** The specification of [in]: the needle occurs somewhere in the text. *)
Definition occurs_in (needle hay : string) : Prop :=
  exists pre post, hay = pre ++ needle ++ post.

End PyStr.

(** ** Python exceptions *)

(** The exception classes the probes can meet, each with its base class.
    [BaseException] is the root; [SystemExit], [KeyboardInterrupt] and
    [GeneratorExit] derive from it directly, everything else from
    [Exception]. *)
Inductive exc_class : Type :=
  | BaseException | SystemExit | KeyboardInterrupt | GeneratorExit
  | Exception
  | OSError | FileNotFoundError | PermissionError | TimeoutError
  | URLError | HTTPError
  | SubprocessError | TimeoutExpired
  | ImportError | ModuleNotFoundError
  | LookupError | IndexError
  | ValueError | UnicodeError | UnicodeDecodeError
  | AttributeError | RuntimeError
  | sqlite3_Error | sqlite3_DatabaseError | sqlite3_OperationalError.

Scheme Equality for exc_class.

Definition base (c : exc_class) : option exc_class :=
  match c with
  | BaseException => None
  | SystemExit | KeyboardInterrupt | GeneratorExit | Exception => Some BaseException
  | OSError | SubprocessError | ImportError | LookupError | ValueError
  | AttributeError | RuntimeError | sqlite3_Error => Some Exception
  | FileNotFoundError | PermissionError | TimeoutError | URLError => Some OSError
  | HTTPError => Some URLError
  | TimeoutExpired => Some SubprocessError
  | ModuleNotFoundError => Some ImportError
  | IndexError => Some LookupError
  | UnicodeError => Some ValueError
  | UnicodeDecodeError => Some UnicodeError
  | sqlite3_DatabaseError => Some sqlite3_Error
  | sqlite3_OperationalError => Some sqlite3_DatabaseError
  end.

(** The class and its bases, nearest first ([depth] bounds the walk). *)
Fixpoint mro (depth : nat) (c : exc_class) : list exc_class :=
  c :: match depth, base c with
       | S d, Some b => mro d b
       | _, _ => []
       end.

Definition issubclass (c d : exc_class) : bool :=
  existsb (exc_class_beq d) (mro 5 c).

(** An exception object: its class, [str(exc)], and the [code] and [reason]
    attributes that [HTTPError] and [URLError] carry (unused elsewhere). *)
Record exn : Type := mk_exn {
  exn_class : exc_class;
  exn_str : string;
  exn_code : Z;
  exn_reason : string
}.

Definition isinstance (e : exn) (c : exc_class) : bool :=
  issubclass (exn_class e) c.

(** ** Values the probes handle *)

(** A dict with string keys, in insertion order. *)
Definition dict (V : Type) : Type := list (string * V).

Fixpoint dict_get {V : Type} (d : dict V) (k : string) : option V :=
  match d with
  | [] => None
  | (k', v) :: d' => if String.eqb k k' then Some v else dict_get d' k
  end.

(** One check's result, and the report [{"results": [...]}]. *)
Definition Result : Type := dict string.
Definition Report : Type := dict (list Result).

Inductive outcome (A : Type) : Type :=
  | Return (a : A)
  | Raise (e : exn).
Arguments Return {A} a.
Arguments Raise {A} e.

(** A Python object, seen through the one thing the script does with the
    value of [__version__]: the f-string formats it, [format(value, '')],
    which gives a text or raises (a [__format__] of the value). *)
Record PyObject : Type := { format_ : outcome string }.

(** The [str] object of a text. *)
Definition str_object (s : string) : PyObject := {| format_ := Return s |}.

(** What [import_module] returns: the module, seen through the one
    attribute the script looks up, [module.__version__].  The lookup gives
    the value, raises [AttributeError] when the attribute is absent, or
    raises something else (a module-level [__getattr__]). *)
Record Module_ : Type := { dunder_version : outcome PyObject }.

(** [subprocess.CompletedProcess] under [capture_output=True, text=True]:
    both streams are strings. *)
Record CompletedProcess : Type := {
  returncode : Z;
  stdout : string;
  stderr : string
}.

(** The response [urlopen] yields; [resp_read] stands for
    [resp.read().decode("utf-8", errors="ignore")]. *)
Record HTTPResponse : Type := {
  resp_status : Z;
  resp_reason : string;
  resp_read : outcome string
}.

Inductive sql_value : Type :=
  | SqlNull
  | SqlInteger (n : Z)
  | SqlText (s : string)
  | SqlBlob (b : string).

Record Cursor : Type := {
  fetchone : outcome (option (list sql_value))
}.

(** [sys.version_info], a named tuple (major, minor, micro, releaselevel,
    serial).  The script compares it with a pair, and a comparison of tuples
    stops at the end of the shorter one, so the last two components are never
    looked at and are left out. *)
Record VersionInfo : Type := {
  major : Z;
  minor : Z;
  micro : Z
}.

Definition as_tuple (v : VersionInfo) : list Z := [major v; minor v; micro v].

(** The surroundings of one run. *)
Record Env : Type := {
  version_info : VersionInfo;
  (** [platform.python_version()] *)
  python_version : string;
  import_module : string -> outcome Module_;
  (** [subprocess.run(argv, ..., timeout=t)] *)
  subprocess_run : list string -> Z -> outcome CompletedProcess;
  (** [urllib.request.urlopen(url, timeout=t)] *)
  urlopen : string -> Z -> outcome HTTPResponse;
  sqlite3_connect : string -> outcome unit;
  (** [conn.execute(sql, params)] *)
  sqlite3_execute : string -> list sql_value -> outcome Cursor;
  (** [conn.commit()] and [conn.rollback()], as the connection's exit hook
      calls them *)
  sqlite3_commit : outcome unit;
  sqlite3_rollback : outcome unit
}.

(** ** Effects: a log of external calls, and exceptions *)

Inductive event : Type :=
  | EvImport (name : string)
  | EvSubprocess (argv : list string)
  | EvHttpGet (url : string)
  | EvHttpRead
  | EvSqlConnect (database : string)
  | EvSqlExecute (sql : string)
  | EvSqlFetchone
  | EvSqlCommit
  | EvSqlRollback
  | EvPrint (report : Report).

Definition M (A : Type) : Type := list event * outcome A.

Definition ret {A : Type} (a : A) : M A := ([], Return a).

Definition bind {A B : Type} (m : M A) (f : A -> M B) : M B :=
  match m with
  | (t, Return a) => let '(t', o) := f a in ((t ++ t')%list, o)
  | (t, Raise e) => (t, Raise e)
  end.

(** An external call: logged, with the outcome the environment gives. *)
Definition call {A : Type} (ev : event) (o : outcome A) : M A := ([ev], o).

Definition events {A : Type} (m : M A) : list event := fst m.
Definition result {A : Type} (m : M A) : outcome A := snd m.

Declare Scope py_scope.
Delimit Scope py_scope with py.
Notation "x <- m ;; k" := (bind m (fun x => k))
  (at level 100, m at next level, right associativity) : py_scope.
Notation "m ;;; k" := (bind m (fun _ => k))
  (at level 100, right associativity) : py_scope.

(** [try: body  except C1 as exc: h1  except C2 as exc: h2 ...]: the first
    clause whose class the exception is an instance of handles it; with no
    such clause the exception goes on. *)
Definition try_except {A : Type} (body : M A)
    (handlers : list (exc_class * (exn -> M A))) : M A :=
  match body with
  | (t, Return a) => (t, Return a)
  | (t, Raise e) =>
      match find (fun h => isinstance e (fst h)) handlers with
      | Some h => let '(t', o) := snd h e in ((t ++ t')%list, o)
      | None => (t, Raise e)
      end
  end.

(** A value or an exception at hand, with no call made. *)
Definition lift {A : Type} (o : outcome A) : M A := ([], o).

(** What a rollback in the connection's exit hook leaves behind: the
    exception [e] that was on its way goes on, unless the rollback itself
    raises, and then that exception goes on instead. *)
Definition rolled_back {A : Type} (rollback : M unit) (e : exn) : M A :=
  match rollback with
  | (t, Return _) => (t, Raise e)
  | (t, Raise e') => (t, Raise e')
  end.

(** [with sqlite3.connect(database) as conn: body].  The connection's exit
    hook calls [commit] when the body ends normally, and [rollback] when the
    body raises or when that commit fails; it never swallows the exception.
    [EvSqlCommit] and [EvSqlRollback] log these two calls of the hook. *)
Definition with_connect {A : Type} (opened commit rollback : M unit)
    (body : unit -> M A) : M A :=
  (conn <- opened ;;
   match body conn with
   | (t, Return a) =>
       match commit with
       | (tc, Return _) => ((t ++ tc)%list, Return a)
       | (tc, Raise e) =>
           let '(tr, o) := rolled_back rollback e in ((t ++ tc ++ tr)%list, o)
       end
   | (t, Raise e) =>
       let '(tr, o) := rolled_back rollback e in ((t ++ tr)%list, o)
   end)%py.

(** Lexicographic [a >= b] on tuples of ints. *)
Fixpoint tuple_ge (a b : list Z) : bool :=
  match a, b with
  | _, [] => true
  | [], _ :: _ => false
  | x :: a', y :: b' => if x =? y then tuple_ge a' b' else y <? x
  end.

(** [row[0] == text] for a fetched row. *)
Definition sql_eq_text (v : sql_value) (text : string) : bool :=
  match v with
  | SqlText s => String.eqb s text
  | _ => false
  end.

Definition index_error : exn :=
  mk_exn IndexError "tuple index out of range" 0 EmptyString.

Definition raise {A : Type} (e : exn) : M A := ([], Raise e).

(** [getattr(obj, name, default)]: the default stands in when the lookup
    raises [AttributeError], and only then. *)
Definition getattr {A : Type} (lookup : outcome A) (default : A) : M A :=
  match lookup with
  | Return v => ret v
  | Raise e => if isinstance e AttributeError then ret default else raise e
  end.

(** ** The script *)

Section HealthCheck.

Variable env : Env.

Import PyStr.
Local Open Scope py_scope.

Definition format_result (name : string) (ok : bool) (details : string) : Result :=
  [ ("name", name);
    ("status", if ok then "ok" else "error");
    ("details", details) ].

Definition check_python : M Result :=
  let version_info := version_info env in
  let version_str := python_version env in
  let ok := tuple_ge (as_tuple version_info) [3; 9] in
  let details := "Python " ++ version_str ++ " detected" in
  let details := if negb ok then details ++ " (requires >= 3.9)" else details in
  ret (format_result "python" ok details).

Definition check_import (module_name : string) (display_name : option string)
  : M Result :=
  let display :=
    match display_name with
    | Some d => or_ d module_name
    | None => module_name
    end in
  try_except
    (module <- call (EvImport module_name) (import_module env module_name) ;;
     version <- getattr (dunder_version module) (str_object "unknown") ;;
     text <- lift (format_ version) ;;
     ret (format_result display true ("Import OK (version: " ++ text ++ ")")))
    [ (Exception, fun exc =>
         ret (format_result display false ("Import failed: " ++ exn_str exc))) ].

Definition _run_ollama_cmd (args : list string) : M CompletedProcess :=
  let argv := "ollama" :: args in
  call (EvSubprocess argv) (subprocess_run env argv 5).

Definition _probe_ollama_http : M Result :=
  let url := "http://localhost:11434/api/version" in
  try_except
    (resp <- call (EvHttpGet url) (urlopen env url 5) ;;
     body <- call EvHttpRead (resp_read resp) ;;
     ret (format_result "ollama_http" true
            ("HTTP " ++ of_int (resp_status resp) ++ " " ++ resp_reason resp
             ++ " @ /api/version: " ++ or_ (strip body) "OK")))
    [ (HTTPError, fun exc =>
         ret (format_result "ollama_http" false
                ("HTTP error @ /api/version: " ++ of_int (exn_code exc)
                 ++ " " ++ exn_reason exc)));
      (URLError, fun exc =>
         ret (format_result "ollama_http" false
                ("HTTP connection error to http://localhost:11434: "
                 ++ exn_reason exc)));
      (Exception, fun exc =>
         ret (format_result "ollama_http" false
                ("HTTP probe error: " ++ exn_str exc))) ].

Definition try_variants : list (list string) := [ ["--version"]; ["version"] ].

(** How one turn of the [for] loop ends: [continue], or [return r]. *)
Inductive loop_exit : Type :=
  | Continue
  | ReturnValue (r : Result).

(** The body of the loop in [check_ollama_cli], for one variant. *)
Definition try_variant (variant : list string) : M loop_exit :=
  try_except
    (proc <- _run_ollama_cmd variant ;;
     if returncode proc =? 0 then
       let details :=
         or_ (strip (or_ (stdout proc) (or_ (stderr proc) EmptyString)))
             ("ollama " ++ join " " variant ++ " OK") in
       ret (ReturnValue (format_result "ollama_cli" true details))
     else
       let stderr_ := lower (strip (or_ (stderr proc) EmptyString)) in
       if contains "unknown command" stderr_ || contains "unknown flag" stderr_
       then ret Continue
       else ret (ReturnValue
                   (format_result "ollama_cli" false
                      ("Exit code " ++ of_int (returncode proc) ++ ": "
                       ++ strip (stderr proc)))))
    [ (FileNotFoundError, fun _ =>
         ret (ReturnValue
                (format_result "ollama_cli" false "ollama CLI not found on PATH")));
      (Exception, fun exc =>
         ret (ReturnValue
                (format_result "ollama_cli" false
                   ("Command error: " ++ exn_str exc)))) ].

(** The loop over the remaining variants, then the fallback. *)
Fixpoint ollama_loop (variants : list (list string)) : M Result :=
  match variants with
  | [] => _probe_ollama_http
  | variant :: rest =>
      x <- try_variant variant ;;
      match x with
      | ReturnValue r => ret r
      | Continue => ollama_loop rest
      end
  end.

Definition check_ollama_cli : M Result := ollama_loop try_variants.

Definition check_sqlite : M Result :=
  try_except
    (ok <- with_connect
             (call (EvSqlConnect ":memory:") (sqlite3_connect env ":memory:"))
             (call EvSqlCommit (sqlite3_commit env))
             (call EvSqlRollback (sqlite3_rollback env))
             (fun conn =>
                let execute sql params :=
                  call (EvSqlExecute sql) (sqlite3_execute env sql params) in
                execute "CREATE TABLE healthcheck(id INTEGER PRIMARY KEY, label TEXT)" [] ;;;
                execute "INSERT INTO healthcheck(label) VALUES (?)" [SqlText "ok"] ;;;
                cur <- execute "SELECT label FROM healthcheck WHERE id = 1" [] ;;
                row <- call EvSqlFetchone (fetchone cur) ;;
                match row with
                | None => ret false
                | Some [] => raise index_error
                | Some (v :: _) => ret (sql_eq_text v "ok")
                end) ;;
     ret (format_result "sqlite" ok
            (if ok then "In-memory DB create/insert/select OK"
             else "Unexpected query result")))
    [ (Exception, fun exc =>
         ret (format_result "sqlite" false ("SQLite error: " ++ exn_str exc))) ].

(** [main]: the eight checks in order, each result appended to the list,
    and the report printed once. *)
Definition main : M unit :=
  let results : list Result := [] in
  r <- check_python ;;
  let results := (results ++ [r])%list in
  r <- check_import "langchain" (Some "langchain") ;;
  let results := (results ++ [r])%list in
  r <- check_import "langchain_community" (Some "langchain-community") ;;
  let results := (results ++ [r])%list in
  r <- check_import "langchain_ollama" (Some "langchain-ollama") ;;
  let results := (results ++ [r])%list in
  r <- check_import "dotenv" (Some "python-dotenv") ;;
  let results := (results ++ [r])%list in
  r <- check_import "pypdf" (Some "pypdf") ;;
  let results := (results ++ [r])%list in
  r <- check_ollama_cli ;;
  let results := (results ++ [r])%list in
  r <- check_sqlite ;;
  let results := (results ++ [r])%list in
  let report : Report := [ ("results", results) ] in
  call (EvPrint report) (Return tt).

End HealthCheck.

(** The reports a run printed, in order. *)
Fixpoint printed (log : list event) : list Report :=
  match log with
  | [] => []
  | EvPrint r :: log' => r :: printed log'
  | _ :: log' => printed log'
  end.

(** The fields of a result. *)
Definition name_of (r : Result) : option string := dict_get r "name".
Definition status_of (r : Result) : option string := dict_get r "status".
Definition details_of (r : Result) : option string := dict_get r "details".

(** ** Concrete environments *)

Definition cpython (a b c : Z) : VersionInfo := {| major := a; minor := b; micro := c |}.

Definition completed (code : Z) (out err : string) : outcome CompletedProcess :=
  Return {| returncode := code; stdout := out; stderr := err |}.

Definition no_version_attribute : exn :=
  mk_exn AttributeError "module has no attribute '__version__'" 0 EmptyString.

(** A module with the given [__version__], or with none. *)
Definition module_with (v : option string) : outcome Module_ :=
  Return {| dunder_version :=
              match v with
              | Some text => Return (str_object text)
              | None => Raise no_version_attribute
              end |}.

Definition timeout_expired : exn :=
  mk_exn TimeoutExpired
    "Command '['ollama', '--version']' timed out after 5 seconds" 0 EmptyString.

Definition file_not_found : exn :=
  mk_exn FileNotFoundError "[Errno 2] No such file or directory: 'ollama'" 2 EmptyString.

Definition connection_refused : exn :=
  mk_exn URLError "<urlopen error [Errno 111] Connection refused>" 0
    "[Errno 111] Connection refused".

Definition no_such_module (name : string) : exn :=
  mk_exn ModuleNotFoundError ("No module named '" ++ name ++ "'") 0 EmptyString.

Definition unable_to_open : exn :=
  mk_exn sqlite3_OperationalError "unable to open database file" 0 EmptyString.

(** A store that answers the three statements as SQLite does. *)
Definition working_execute (sql : string) (params : list sql_value) : outcome Cursor :=
  if String.eqb sql "SELECT label FROM healthcheck WHERE id = 1"
  then Return {| fetchone := Return (Some [SqlText "ok"]) |}
  else Return {| fetchone := Return None |}.

(** Python 3.11.4, every package installed, [ollama --version] answering,
    the server up, the store working. *)
Definition env_healthy : Env := {|
  version_info := cpython 3 11 4;
  python_version := "3.11.4";
  import_module := fun name =>
    if String.eqb name "langchain" then module_with (Some "0.3.7")
    else if String.eqb name "dotenv" then module_with None
    else if String.eqb name "pypdf" then module_with (Some "5.1.0")
    else if String.eqb name "langchain_community" then module_with (Some "0.3.5")
    else if String.eqb name "langchain_ollama" then module_with (Some "0.2.0")
    else Raise (no_such_module name);
  subprocess_run := fun argv _ =>
    match argv with
    | [_; "--version"] => completed 0 "ollama version is 0.5.1
" EmptyString
    | _ => completed 1 EmptyString "Error: unknown command"
    end;
  urlopen := fun _ _ =>
    Return {| resp_status := 200; resp_reason := "OK";
              resp_read := Return "0.5.1" |};
  sqlite3_connect := fun _ => Return tt;
  sqlite3_execute := working_execute;
  sqlite3_commit := Return tt;
  sqlite3_rollback := Return tt
|}.

(** The same surroundings with one part replaced. *)
Definition with_version (v : VersionInfo) (text : string) (e : Env) : Env := {|
  version_info := v;
  python_version := text;
  import_module := import_module e;
  subprocess_run := subprocess_run e;
  urlopen := urlopen e;
  sqlite3_connect := sqlite3_connect e;
  sqlite3_execute := sqlite3_execute e;
  sqlite3_commit := sqlite3_commit e;
  sqlite3_rollback := sqlite3_rollback e
|}.

Definition with_import (f : string -> outcome Module_) (e : Env) : Env := {|
  version_info := version_info e;
  python_version := python_version e;
  import_module := f;
  subprocess_run := subprocess_run e;
  urlopen := urlopen e;
  sqlite3_connect := sqlite3_connect e;
  sqlite3_execute := sqlite3_execute e;
  sqlite3_commit := sqlite3_commit e;
  sqlite3_rollback := sqlite3_rollback e
|}.

(** [cli] answers by the arguments after the command name. *)
Definition with_cli (cli : list string -> outcome CompletedProcess) (e : Env) : Env := {|
  version_info := version_info e;
  python_version := python_version e;
  import_module := import_module e;
  subprocess_run := fun argv _ => cli (tl argv);
  urlopen := urlopen e;
  sqlite3_connect := sqlite3_connect e;
  sqlite3_execute := sqlite3_execute e;
  sqlite3_commit := sqlite3_commit e;
  sqlite3_rollback := sqlite3_rollback e
|}.

Definition with_http (o : outcome HTTPResponse) (e : Env) : Env := {|
  version_info := version_info e;
  python_version := python_version e;
  import_module := import_module e;
  subprocess_run := subprocess_run e;
  urlopen := fun _ _ => o;
  sqlite3_connect := sqlite3_connect e;
  sqlite3_execute := sqlite3_execute e;
  sqlite3_commit := sqlite3_commit e;
  sqlite3_rollback := sqlite3_rollback e
|}.

Definition with_sqlite (connect : outcome unit)
    (execute : string -> list sql_value -> outcome Cursor) (e : Env) : Env := {|
  version_info := version_info e;
  python_version := python_version e;
  import_module := import_module e;
  subprocess_run := subprocess_run e;
  urlopen := urlopen e;
  sqlite3_connect := fun _ => connect;
  sqlite3_execute := execute;
  sqlite3_commit := sqlite3_commit e;
  sqlite3_rollback := sqlite3_rollback e
|}.

(** The same surroundings with another exit hook of the connection. *)
Definition with_exit_hook (commit rollback : outcome unit) (e : Env) : Env := {|
  version_info := version_info e;
  python_version := python_version e;
  import_module := import_module e;
  subprocess_run := subprocess_run e;
  urlopen := urlopen e;
  sqlite3_connect := sqlite3_connect e;
  sqlite3_execute := sqlite3_execute e;
  sqlite3_commit := commit;
  sqlite3_rollback := rollback
|}.

(** Python 3.8 with everything else in order. *)
Definition env_py38 : Env := with_version (cpython 3 8 10) "3.8.10" env_healthy.

(** [--version] fails for a reason of its own; [version] would have worked. *)
Definition env_first_variant_fails : Env :=
  with_cli (fun args =>
              match args with
              | ["--version"] => completed 1 EmptyString "Error: could not connect to ollama app"
              | _ => completed 0 "ollama version is 0.5.1" EmptyString
              end) env_healthy.

(** The command hangs past the five seconds. *)
Definition env_timeout : Env := with_cli (fun _ => Raise timeout_expired) env_healthy.

(** No [ollama] on PATH. *)
Definition env_no_cli : Env := with_cli (fun _ => Raise file_not_found) env_healthy.

(** The command succeeds and prints nothing at all. *)
Definition env_silent_cli : Env :=
  with_cli (fun _ => completed 0 EmptyString EmptyString) env_healthy.

(** The command knows neither spelling; the server answers. *)
Definition env_http_up : Env :=
  with_cli (fun args =>
              match args with
              | ["--version"] => completed 1 EmptyString "Error: unknown flag: --version"
              | _ => completed 1 EmptyString "Error: Unknown Command version for ollama"
              end) env_healthy.

(** The command knows neither spelling; nothing listens on the port. *)
Definition env_http_down : Env := with_http (Raise connection_refused) env_http_up.

(** [--version] is unknown, [version] answers on standard error only. *)
Definition env_second_variant : Env :=
  with_cli (fun args =>
              match args with
              | ["--version"] => completed 2 EmptyString "unknown flag"
              | _ => completed 0 EmptyString "  v0.1.0  "
              end) env_healthy.

(** The store cannot be opened. *)
Definition env_no_store : Env :=
  with_sqlite (Raise unable_to_open) working_execute env_healthy.

(** As [env_healthy], but differing from it wherever the script never looks:
    another module, another command line, another URL, another database. *)
Definition env_healthy_elsewhere : Env := {|
  version_info := version_info env_healthy;
  python_version := python_version env_healthy;
  import_module := fun name =>
    if String.eqb name "numpy" then module_with (Some "2.1.0")
    else import_module env_healthy name;
  subprocess_run := fun argv t =>
    match argv with
    | ["ollama"; "list"] => completed 0 "NAME  ID  SIZE" EmptyString
    | _ => subprocess_run env_healthy argv t
    end;
  urlopen := fun url t =>
    if String.eqb url "http://localhost:11434/api/version"
    then urlopen env_healthy url t
    else Raise connection_refused;
  sqlite3_connect := fun db =>
    if String.eqb db ":memory:" then Return tt else Raise unable_to_open;
  sqlite3_execute := sqlite3_execute env_healthy;
  sqlite3_commit := sqlite3_commit env_healthy;
  sqlite3_rollback := sqlite3_rollback env_healthy
|}.

(** ** Vocabulary of the properties *)

Definition ollama_url : string := "http://localhost:11434/api/version".

(** The HTTP probe was executed: the log holds the GET. *)
Definition http_probed (log : list event) : Prop := In (EvHttpGet ollama_url) log.

(** The command was run with this variant. *)
Definition invoked (variant : list string) (log : list event) : Prop :=
  In (EvSubprocess ("ollama" :: variant)) log.

(** What running the command with this variant gives. *)
Definition ran (env : Env) (variant : list string) : outcome CompletedProcess :=
  subprocess_run env ("ollama" :: variant) 5.

(** The error output speaks of an unrecognized command or flag. *)
Definition says_unknown (p : CompletedProcess) : Prop :=
  let text := PyStr.lower (PyStr.strip (stderr p)) in
  PyStr.occurs_in "unknown command" text \/ PyStr.occurs_in "unknown flag" text.

(** The three ways a variant that does not exit with 0 can end. *)
Definition skipped (env : Env) (variant : list string) : Prop :=
  exists p, ran env variant = Return p /\ returncode p <> 0 /\ says_unknown p.

Definition failed_otherwise (env : Env) (variant : list string) : Prop :=
  exists p, ran env variant = Return p /\ returncode p <> 0 /\ ~ says_unknown p.

Definition binary_missing (env : Env) (variant : list string) : Prop :=
  exists e, ran env variant = Raise e /\ isinstance e FileNotFoundError = true.

Definition exits_zero (env : Env) (variant : list string) : Prop :=
  exists p, ran env variant = Return p /\ returncode p = 0.

Definition valid_status (r : Result) : Prop :=
  status_of r = Some "ok" \/ status_of r = Some "error".

(** The log ends with this event. *)
Definition ends_with (ev : event) (log : list event) : Prop :=
  exists before, log = (before ++ [ev])%list.

(** The captured standard output trimmed, or the captured standard error
    trimmed when standard output is empty. *)
Definition trimmed_output (p : CompletedProcess) : string :=
  match stdout p with
  | EmptyString => PyStr.strip (stderr p)
  | _ => PyStr.strip (stdout p)
  end.

(** The details a successful variant is reported with: its trimmed output,
    or a fixed line naming the variant when that is empty. *)
Definition success_details (variant : list string) (p : CompletedProcess) : string :=
  match trimmed_output p with
  | EmptyString => "ollama " ++ PyStr.join " " variant ++ " OK"
  | text => text
  end.

(** The interpreter is at least Python 3.9. *)
Definition at_least_3_9 (v : VersionInfo) : Prop :=
  3 < major v \/ (major v = 3 /\ 9 <= minor v).

(** The modules [main] asks for, and the names it reports, in order. *)
Definition required_modules : list string :=
  [ "langchain"; "langchain_community"; "langchain_ollama"; "dotenv"; "pypdf" ].

Definition expected_names : list string :=
  [ "python"; "langchain"; "langchain-community"; "langchain-ollama";
    "python-dotenv"; "pypdf"; "ollama_cli"; "sqlite" ].

Definition sql_create : string :=
  "CREATE TABLE healthcheck(id INTEGER PRIMARY KEY, label TEXT)".
Definition sql_insert : string := "INSERT INTO healthcheck(label) VALUES (?)".
Definition sql_select : string := "SELECT label FROM healthcheck WHERE id = 1".

(** How the open / create / insert / select sequence on the in-memory store
    ends: with the exception of the first step that fails, or with what the
    primary-key query fetched. *)
Inductive store_outcome (env : Env) : outcome (option (list sql_value)) -> Prop :=
  | open_fails e :
      sqlite3_connect env ":memory:" = Raise e ->
      store_outcome env (Raise e)
  | create_fails e :
      sqlite3_connect env ":memory:" = Return tt ->
      sqlite3_execute env sql_create [] = Raise e ->
      store_outcome env (Raise e)
  | insert_fails c1 e :
      sqlite3_connect env ":memory:" = Return tt ->
      sqlite3_execute env sql_create [] = Return c1 ->
      sqlite3_execute env sql_insert [SqlText "ok"] = Raise e ->
      store_outcome env (Raise e)
  | select_fails c1 c2 e :
      sqlite3_connect env ":memory:" = Return tt ->
      sqlite3_execute env sql_create [] = Return c1 ->
      sqlite3_execute env sql_insert [SqlText "ok"] = Return c2 ->
      sqlite3_execute env sql_select [] = Raise e ->
      store_outcome env (Raise e)
  | select_fetches c1 c2 cur :
      sqlite3_connect env ":memory:" = Return tt ->
      sqlite3_execute env sql_create [] = Return c1 ->
      sqlite3_execute env sql_insert [SqlText "ok"] = Return c2 ->
      sqlite3_execute env sql_select [] = Return cur ->
      store_outcome env (fetchone cur).

(** A row was retrieved and its value is the inserted constant. *)
Definition row_is_ok (o : outcome (option (list sql_value))) : Prop :=
  exists rest, o = Return (Some (SqlText "ok" :: rest)).

Definition status_ok (r : Result) : Prop := status_of r = Some "ok".

(** What [getattr(module, "__version__", "unknown")], formatted, gives. *)
Definition version_text (m : Module_) : outcome string :=
  match dunder_version m with
  | Return v => format_ v
  | Raise e => if isinstance e AttributeError then Return "unknown" else Raise e
  end.

(** The premises of the end-to-end property. *)
Definition modules_resolvable (env : Env) : Prop :=
  forall name, In name required_modules ->
    exists m text,
      import_module env name = Return m /\ version_text m = Return text.

Definition cli_exits_zero_on_a_variant (env : Env) : Prop :=
  exists variant, In variant try_variants /\ exits_zero env variant.

Definition cli_answers (env : Env) : Prop :=
  exits_zero env ["--version"]
  \/ (skipped env ["--version"] /\ exits_zero env ["version"]).

Definition database_works (env : Env) : Prop :=
  exists o, store_outcome env o /\ row_is_ok o /\ sqlite3_commit env = Return tt.

(** The report of a fully healthy run. *)
Definition all_ok_report (report : Report) : Prop :=
  exists results,
    report = [ ("results", results) ]
    /\ length results = 8%nat
    /\ Forall status_ok results
    /\ map name_of results = map Some expected_names.


(** ** The printed text: [json.dumps(report, indent=2)] *)

Module Json.

(** The JSON values the report is made of. *)
#[local] Unset Elimination Schemes.
Inductive value : Type :=
  | Str (s : string)
  | Arr (items : list value)
  | Obj (members : list (string * value)).
#[local] Set Elimination Schemes.

Definition quote : ascii := "034"%char.
Definition backslash : ascii := "092"%char.
Definition newline : ascii := "010"%char.

(** One lowercase hexadecimal digit. *)
Definition hex_digit (n : N) : ascii :=
  if (n <? 10)%N then ascii_of_N (48 + n) else ascii_of_N (87 + n).

(** A number below 65536 as four hexadecimal digits: [format(n, '04x')]. *)
Definition hex4 (n : N) : string :=
  String (hex_digit ((n / 4096) mod 16))
    (String (hex_digit ((n / 256) mod 16))
       (String (hex_digit ((n / 16) mod 16))
          (String (hex_digit (n mod 16)) EmptyString))).

Definition unicode_escape (n : N) : string := String backslash ("u" ++ hex4 n).

(** The encoder's escape table under [ensure_ascii=True], by code point:
    the backslash, the quote and five control characters have
    two-character escapes; space to tilde stand for themselves; every other
    code point of the basic plane becomes [\uXXXX], and a code point
    beyond it the two escapes of its surrogate pair. *)
Definition escape_point (n : N) : string :=
  if (n =? 92)%N then String backslash (String backslash EmptyString)
  else if (n =? 34)%N then String backslash (String quote EmptyString)
  else if (n =? 8)%N then String backslash "b"
  else if (n =? 12)%N then String backslash "f"
  else if (n =? 10)%N then String backslash "n"
  else if (n =? 13)%N then String backslash "r"
  else if (n =? 9)%N then String backslash "t"
  else if ((32 <=? n) && (n <=? 126))%N then String (ascii_of_N n) EmptyString
  else if (n <? 65536)%N then unicode_escape n
  else
    let v := (n - 65536)%N in
    unicode_escape (55296 + (v / 1024) mod 1024)
    ++ unicode_escape (56320 + v mod 1024).

(** The characters of the model are the code points below 256. *)
Definition escape_char (c : ascii) : string := escape_point (N_of_ascii c).

Fixpoint escape (s : string) : string :=
  match s with
  | EmptyString => EmptyString
  | String c s' => escape_char c ++ escape s'
  end.

(** A string as a JSON string literal. *)
Definition encode_string (s : string) : string :=
  String quote (escape s ++ String quote EmptyString).

Fixpoint spaces (n : nat) : string :=
  match n with
  | O => EmptyString
  | S n' => String " " (spaces n')
  end.

(** The line break before an item at nesting depth [level]. *)
Definition newline_indent (indent level : nat) : string :=
  String newline (spaces (indent * level)).

(** The encoder, at nesting depth [level]: an empty array or object is
    written closed on the spot; items are separated by a comma and a line
    break, keys from values by a colon and a space. *)
Fixpoint encode (indent level : nat) (v : value) : string :=
  match v with
  | Str s => encode_string s
  | Arr [] => "[]"
  | Arr items =>
      "[" ++ newline_indent indent (S level)
      ++ String.concat ("," ++ newline_indent indent (S level))
           (map (encode indent (S level)) items)
      ++ newline_indent indent level ++ "]"
  | Obj [] => "{}"
  | Obj members =>
      "{" ++ newline_indent indent (S level)
      ++ String.concat ("," ++ newline_indent indent (S level))
           (map (fun kv => encode_string (fst kv) ++ ": "
                           ++ encode indent (S level) (snd kv)) members)
      ++ newline_indent indent level ++ "}"
  end.

(** [json.dumps(v, indent=indent)] *)
Definition dumps (indent : nat) (v : value) : string := encode indent 0 v.

End Json.

(** The report as the JSON value [main] hands to [json.dumps]. *)
Definition result_value (r : Result) : Json.value :=
  Json.Obj (map (fun kv => (fst kv, Json.Str (snd kv))) r).

Definition report_value (report : Report) : Json.value :=
  Json.Obj (map (fun kv => (fst kv, Json.Arr (map result_value (snd kv)))) report).

(** What [print(json.dumps(report, indent=2))] writes to standard output. *)
Definition print_report (report : Report) : string :=
  Json.dumps 2 (report_value report) ++ String Json.newline EmptyString.

(** Standard output of a run. *)
Definition stdout_of (log : list event) : string :=
  String.concat EmptyString (map print_report (printed log)).

(** ** Vocabulary of the further properties *)

(** The logged run of the command with one variant. *)
Definition run_of (variant : list string) : event :=
  EvSubprocess ("ollama" :: variant).

(** The calls the service check may make. *)
Definition service_call (ev : event) : Prop :=
  ev = run_of ["--version"] \/ ev = run_of ["version"]
  \/ ev = EvHttpGet ollama_url \/ ev = EvHttpRead.

(** The command lines a log holds, in order. *)
Fixpoint subprocesses (log : list event) : list (list string) :=
  match log with
  | [] => []
  | EvSubprocess argv :: log' => argv :: subprocesses log'
  | _ :: log' => subprocesses log'
  end.

(** The SQL statements a log holds, in order. *)
Fixpoint executed (log : list event) : list string :=
  match log with
  | [] => []
  | EvSqlExecute sql :: log' => sql :: executed log'
  | _ :: log' => executed log'
  end.


(** A text is trimmed when stripping changes nothing. *)
Definition trimmed (s : string) : Prop := PyStr.strip s = s.

(** An exception reached the HTTP probe, from the request or from reading
    the response. *)
Definition probe_fault (env : Env) (e : exn) : Prop :=
  urlopen env ollama_url 5 = Raise e
  \/ exists resp, urlopen env ollama_url 5 = Return resp /\ resp_read resp = Raise e.

(** The characters of a text satisfy a test. *)
Fixpoint all_chars (test : ascii -> bool) (s : string) : bool :=
  match s with
  | EmptyString => true
  | String c s' => test c && all_chars test s'
  end.

(** Space to tilde. *)
Definition printable (c : ascii) : bool :=
  let n := N_of_ascii c in ((32 <=? n) && (n <=? 126))%N.

Definition printable_or_newline (c : ascii) : bool :=
  printable c || Ascii.eqb c Json.newline.

(** How many times a character occurs in a text. *)
Fixpoint count_char (c : ascii) (s : string) : nat :=
  match s with
  | EmptyString => O
  | String d s' => (if Ascii.eqb c d then 1 else 0) + count_char c s'
  end.

Definition permission_denied : exn :=
  mk_exn PermissionError "[Errno 13] Permission denied: 'ollama'" 13 EmptyString.

(** An [ollama] on PATH that may not be executed. *)
Definition env_cli_not_executable : Env :=
  with_cli (fun _ => Raise permission_denied) env_healthy.


(** ** Faults, ordinary and not *)

(** An outcome that, if it is an exception, is an instance of [Exception]. *)
Definition ordinary {A : Type} (o : outcome A) : Prop :=
  forall e, o = Raise e -> isinstance e Exception = true.

(** An environment in which whatever is raised is an instance of
    [Exception]: no call is interrupted by a [KeyboardInterrupt], and no
    imported module exits the interpreter. *)
Record ordinary_faults (env : Env) : Prop := {
  ordinary_import : forall name, ordinary (import_module env name);
  ordinary_version :
    forall name m, import_module env name = Return m -> ordinary (version_text m);
  ordinary_run : forall argv t, ordinary (subprocess_run env argv t);
  ordinary_urlopen : forall url t, ordinary (urlopen env url t);
  ordinary_read :
    forall url t resp, urlopen env url t = Return resp -> ordinary (resp_read resp);
  ordinary_connect : forall database, ordinary (sqlite3_connect env database);
  ordinary_execute : forall sql params, ordinary (sqlite3_execute env sql params);
  ordinary_fetchone :
    forall sql params cur,
      sqlite3_execute env sql params = Return cur -> ordinary (fetchone cur);
  ordinary_commit : ordinary (sqlite3_commit env);
  ordinary_rollback : ordinary (sqlite3_rollback env)
}.

Definition system_exit : exn := mk_exn SystemExit "3" 3 EmptyString.

Definition keyboard_interrupt : exn :=
  mk_exn KeyboardInterrupt EmptyString 0 EmptyString.


Definition disk_full : exn :=
  mk_exn sqlite3_OperationalError "database or disk is full" 0 EmptyString.


(** [langchain_ollama] calls [sys.exit(3)] when it is imported. *)
Definition env_exit_on_import : Env :=
  with_import (fun name =>
                 if String.eqb name "langchain_ollama" then Raise system_exit
                 else import_module env_healthy name) env_healthy.


(** The row comes back as inserted, but the commit that ends the block
    fails. *)
Definition env_commit_fails : Env :=
  with_exit_hook (Raise disk_full) (Return tt) env_healthy.

(** The user interrupts the run while the table is being created. *)
Definition env_interrupted_create : Env :=
  with_sqlite (Return tt) (fun _ _ => Raise keyboard_interrupt) env_healthy.

(** What is on its way out of the [with] block of the database check when
    the exit hook has rolled back. *)
Definition after_rollback (env : Env) (e : exn) : exn :=
  match sqlite3_rollback env with
  | Return _ => e
  | Raise e' => e'
  end.

(** What the blanket handler of an import check makes of an exception. *)
Definition import_handled (display : string) (e : exn) : outcome Result :=
  if isinstance e Exception
  then Return [ ("name", display); ("status", "error");
                ("details", "Import failed: " ++ exn_str e) ]
  else Raise e.

(** What the blanket handler of the database check makes of an exception. *)
Definition sqlite_handled (e : exn) : outcome Result :=
  if isinstance e Exception
  then Return [ ("name", "sqlite"); ("status", "error");
                ("details", "SQLite error: " ++ exn_str e) ]
  else Raise e.

(** The exception that leaves the [with] block of the database check, if
    any, given how the open / create / insert / select sequence ended: the
    exception of the step that failed, or of indexing an empty row, or of
    the commit that ends the block; after a rollback, that one or the
    rollback's own. *)
Definition leaving_block (env : Env) (o : outcome (option (list sql_value)))
  : option exn :=
  match o with
  | Raise e =>
      match sqlite3_connect env ":memory:" with
      | Raise _ => Some e
      | Return _ => Some (after_rollback env e)
      end
  | Return (Some []) => Some (after_rollback env index_error)
  | Return _ =>
      match sqlite3_commit env with
      | Return _ => None
      | Raise e => Some (after_rollback env e)
      end
  end.

(** ** Two runs in one world *)














(** ** Strings and exceptions: basic facts *)

Section StringFacts.

Import PyStr.

Lemma prefix_spec (a b : string) :
  prefix a b = true <-> exists post, b = a ++ post.
Proof.
  revert b; induction a as [|c a IH]; intros b; destruct b as [|d b]; simpl.
  - split; [intros _; now exists EmptyString | reflexivity].
  - split; [intros _; now exists (String d b) | reflexivity].
  - split; [discriminate | intros [post H]; discriminate].
  - destruct (Ascii.ascii_dec c d) as [->|Hne].
    + rewrite IH; split; intros [post H]; exists post.
      * now rewrite H.
      * now inversion H.
    + split; [discriminate | intros [post H]; inversion H; congruence].
Qed.

(** [in] is the substring test. *)
Lemma contains_spec (needle hay : string) :
  contains needle hay = true <-> occurs_in needle hay.
Proof.
  unfold occurs_in; induction hay as [|c hay IH]; cbn [contains].
  - rewrite orb_false_r, prefix_spec; split.
    + intros [post H]; now exists EmptyString, post.
    + intros [[|d pre] [post H]]; simpl in H; [now exists post | discriminate].
  - rewrite orb_true_iff, prefix_spec, IH; split.
    + intros [[post H] | [pre [post H]]].
      * now exists EmptyString, post.
      * exists (String c pre), post; simpl; now rewrite H.
    + intros [[|d pre] [post H]]; simpl in H.
      * left; now exists post.
      * right; exists pre, post; now inversion H.
Qed.

Lemma contains_false (needle hay : string) :
  contains needle hay = false <-> ~ occurs_in needle hay.
Proof.
  rewrite <- contains_spec; destruct (contains needle hay); split; intros H;
    try reflexivity; try discriminate; try (intros K; discriminate).
  now contradiction H.
Qed.

Lemma append_assoc (a b c : string) : (a ++ b) ++ c = a ++ b ++ c.
Proof. induction a as [|x a IH]; simpl; [reflexivity | now rewrite IH]. Qed.

Lemma append_empty_r (a : string) : a ++ EmptyString = a.
Proof. induction a as [|x a IH]; simpl; [reflexivity | now rewrite IH]. Qed.

(** A piece of a concatenation occurs in it. *)
Lemma occurs_in_middle (pre s post : string) : occurs_in s (pre ++ s ++ post).
Proof. now exists pre, post. Qed.

Lemma occurs_in_end (pre s : string) : occurs_in s (pre ++ s).
Proof. exists pre, EmptyString; now rewrite append_empty_r. Qed.

Lemma or_empty_r (s : string) : or_ s EmptyString = s.
Proof. now destruct s. Qed.

End StringFacts.

(** ** Exception classes *)

(** An instance of a class that derives from [Exception] is an instance of
    [Exception]. *)
Lemma instance_of_ordinary_class (e : exn) (c : exc_class) :
  issubclass c Exception = true ->
  isinstance e c = true -> isinstance e Exception = true.
Proof.
  destruct e as [d s n r]; unfold isinstance; cbn [exn_class].
  destruct c; try discriminate; intros _; destruct d; try discriminate; reflexivity.
Qed.

Lemma file_not_found_is_ordinary (e : exn) :
  isinstance e FileNotFoundError = true -> isinstance e Exception = true.
Proof. now apply instance_of_ordinary_class. Qed.

Lemma timeout_expired_is_ordinary (e : exn) :
  isinstance e TimeoutExpired = true -> isinstance e Exception = true.
Proof. now apply instance_of_ordinary_class. Qed.

Lemma http_error_is_ordinary (e : exn) :
  isinstance e HTTPError = true -> isinstance e Exception = true.
Proof. now apply instance_of_ordinary_class. Qed.

Lemma url_error_is_ordinary (e : exn) :
  isinstance e URLError = true -> isinstance e Exception = true.
Proof. now apply instance_of_ordinary_class. Qed.

(** What is not an [Exception] is none of the classes the handlers name. *)
Lemma interrupt_passes_handlers (e : exn) :
  isinstance e Exception = false ->
  isinstance e FileNotFoundError = false
  /\ isinstance e HTTPError = false /\ isinstance e URLError = false.
Proof.
  intros H; repeat split; apply not_true_is_false; intros K;
    [apply file_not_found_is_ordinary in K | apply http_error_is_ordinary in K
     | apply url_error_is_ordinary in K]; congruence.
Qed.

(** A [TimeoutExpired] is not a [FileNotFoundError]. *)
Lemma timeout_not_file_not_found (e : exn) :
  isinstance e TimeoutExpired = true -> isinstance e FileNotFoundError = false.
Proof. destruct e as [c s n r]; destruct c; simpl; intros H; try discriminate; reflexivity. Qed.

(** ** The service check, one variant at a time *)

Section OllamaFacts.

Variable env : Env.

Import PyStr.

Let run_event (variant : list string) : event := EvSubprocess ("ollama" :: variant).

Ltac step_variant H :=
  unfold try_variant, _run_ollama_cmd, call; unfold ran in H; rewrite H;
  cbn [bind try_except ret find fst snd app].

Lemma try_variant_exit_zero (variant : list string) (p : CompletedProcess) :
  ran env variant = Return p -> returncode p = 0 ->
  try_variant env variant =
    ([run_event variant],
     Return (ReturnValue
               (format_result "ollama_cli" true
                  (or_ (strip (or_ (stdout p) (stderr p)))
                       ("ollama " ++ join " " variant ++ " OK"))))).
Proof.
  intros H Hz; step_variant H.
  rewrite Hz, or_empty_r; reflexivity.
Qed.

Lemma unknown_test (p : CompletedProcess) :
  let text := lower (strip (or_ (stderr p) EmptyString)) in
  (contains "unknown command" text || contains "unknown flag" text = true
   <-> says_unknown p).
Proof.
  cbv zeta; unfold says_unknown; rewrite or_empty_r, orb_true_iff, !contains_spec.
  reflexivity.
Qed.

Lemma try_variant_skipped (variant : list string) :
  skipped env variant ->
  try_variant env variant = ([run_event variant], Return Continue).
Proof.
  intros (p & H & Hnz & Hu); step_variant H.
  apply Z.eqb_neq in Hnz; rewrite Hnz.
  apply unknown_test in Hu; cbv zeta in Hu; rewrite Hu; reflexivity.
Qed.

Lemma try_variant_failed (variant : list string) (p : CompletedProcess) :
  ran env variant = Return p -> returncode p <> 0 -> ~ says_unknown p ->
  try_variant env variant =
    ([run_event variant],
     Return (ReturnValue
               (format_result "ollama_cli" false
                  ("Exit code " ++ of_int (returncode p) ++ ": "
                   ++ strip (stderr p))))).
Proof.
  intros H Hnz Hu; step_variant H.
  apply Z.eqb_neq in Hnz; rewrite Hnz.
  rewrite <- unknown_test in Hu; cbv zeta in Hu.
  apply not_true_is_false in Hu; rewrite Hu; reflexivity.
Qed.

Lemma try_variant_missing (variant : list string) (e : exn) :
  ran env variant = Raise e -> isinstance e FileNotFoundError = true ->
  try_variant env variant =
    ([run_event variant],
     Return (ReturnValue
               (format_result "ollama_cli" false "ollama CLI not found on PATH"))).
Proof.
  intros H Hc; step_variant H. rewrite Hc; reflexivity.
Qed.

Lemma try_variant_raised (variant : list string) (e : exn) :
  ran env variant = Raise e -> isinstance e FileNotFoundError = false ->
  isinstance e Exception = true ->
  try_variant env variant =
    ([run_event variant],
     Return (ReturnValue
               (format_result "ollama_cli" false ("Command error: " ++ exn_str e)))).
Proof.
  intros H Hc Ho; step_variant H.
  rewrite Hc, Ho; reflexivity.
Qed.

(** An exception that is not an [Exception] passes both handlers. *)
Lemma try_variant_interrupted (variant : list string) (e : exn) :
  ran env variant = Raise e -> isinstance e Exception = false ->
  try_variant env variant = ([run_event variant], Raise e).
Proof.
  intros H Ho; step_variant H.
  destruct (interrupt_passes_handlers e Ho) as [Hc _].
  rewrite Hc, Ho; reflexivity.
Qed.

(** Every way the command can end falls under one of the six lemmas. *)
Lemma variant_cases (variant : list string) :
  exits_zero env variant \/ skipped env variant \/ failed_otherwise env variant
  \/ binary_missing env variant
  \/ (exists e, ran env variant = Raise e /\ isinstance e FileNotFoundError = false
                /\ isinstance e Exception = true)
  \/ (exists e, ran env variant = Raise e /\ isinstance e Exception = false).
Proof.
  unfold exits_zero, skipped, failed_otherwise, binary_missing.
  destruct (ran env variant) as [p|e] eqn:H.
  - destruct (Z.eq_dec (returncode p) 0) as [Hz|Hnz]; [left; eauto|].
    right. destruct (unknown_test p) as [U1 U2]; cbv zeta in U1, U2.
    match type of U1 with ?b = true -> _ => destruct b eqn:Hb end.
    + left; exists p; auto.
    + right; left; exists p; repeat split; auto.
      intros K; apply U2 in K; discriminate.
  - destruct (isinstance e Exception) eqn:Ho; [|do 5 right; eauto].
    destruct (isinstance e FileNotFoundError) eqn:Hc; do 3 right; [left|right; left];
      eauto.
Qed.

(** How a turn of the loop ends: with [continue] exactly when the variant
    is skipped; with a result named [ollama_cli]; or with the exception the
    run raised, when that is not an [Exception]. *)
Lemma try_variant_outcome (variant : list string) :
  exists o, try_variant env variant = ([run_event variant], o)
            /\ (o = Return Continue <-> skipped env variant)
            /\ (forall r, o = Return (ReturnValue r) ->
                  name_of r = Some "ollama_cli" /\ valid_status r)
            /\ (forall e, o = Raise e ->
                  ran env variant = Raise e /\ isinstance e Exception = false).
Proof.
  destruct (variant_cases variant)
    as [(p & H & Hz) | [Hs | [(p & H & Hnz & Hu) | [(e & H & Hc)
       | [(e & H & Hc & Ho) | (e & H & Ho)]]]]].
  - eexists; split; [eapply try_variant_exit_zero; eassumption|]. split; [|split].
    + split; [discriminate|]. intros (q & Hq & Hqnz & _); congruence.
    + intros r [= <-]; split; [reflexivity | left; reflexivity].
    + discriminate.
  - eexists; split; [apply try_variant_skipped; assumption|]. split; [|split].
    + tauto.
    + discriminate.
    + discriminate.
  - eexists; split; [eapply try_variant_failed; eassumption|]. split; [|split].
    + split; [discriminate|]. intros (q & Hq & _ & Hqu); congruence.
    + intros r [= <-]; split; [reflexivity | right; reflexivity].
    + discriminate.
  - eexists; split; [eapply try_variant_missing; eassumption|]. split; [|split].
    + split; [discriminate|]. intros (q & Hq & _); congruence.
    + intros r [= <-]; split; [reflexivity | right; reflexivity].
    + discriminate.
  - eexists; split; [eapply try_variant_raised; eassumption|]. split; [|split].
    + split; [discriminate|]. intros (q & Hq & _); congruence.
    + intros r [= <-]; split; [reflexivity | right; reflexivity].
    + discriminate.
  - eexists; split; [eapply try_variant_interrupted; eassumption|]. split; [|split].
    + split; [discriminate|]. intros (q & Hq & _); congruence.
    + discriminate.
    + intros e' [= <-]; split; assumption.
Qed.

End OllamaFacts.

(** ** The HTTP probe and the paths through the service check *)

Section ServiceCheckPaths.

Variable env : Env.

Import PyStr.

(** What the three handlers of the probe make of an exception. *)
Lemma probe_handlers (t : list event) (e : exn) :
  exists o,
    try_except (t, Raise e)
      [ (HTTPError, fun exc =>
           ret (format_result "ollama_http" false
                  ("HTTP error @ /api/version: " ++ of_int (exn_code exc)
                   ++ " " ++ exn_reason exc)));
        (URLError, fun exc =>
           ret (format_result "ollama_http" false
                  ("HTTP connection error to http://localhost:11434: "
                   ++ exn_reason exc)));
        (Exception, fun exc =>
           ret (format_result "ollama_http" false
                  ("HTTP probe error: " ++ exn_str exc))) ]
    = (t, o)
    /\ (forall r, o = Return r ->
          name_of r = Some "ollama_http" /\ valid_status r
          /\ map fst r = ["name"; "status"; "details"])
    /\ (forall e', o = Raise e' -> e' = e /\ isinstance e Exception = false)
    /\ o = (if isinstance e HTTPError
            then Return (format_result "ollama_http" false
                           ("HTTP error @ /api/version: " ++ of_int (exn_code e)
                            ++ " " ++ exn_reason e))
            else if isinstance e URLError
            then Return (format_result "ollama_http" false
                           ("HTTP connection error to http://localhost:11434: "
                            ++ exn_reason e))
            else if isinstance e Exception
            then Return (format_result "ollama_http" false
                           ("HTTP probe error: " ++ exn_str e))
            else Raise e).
Proof.
  cbn [try_except find fst snd].
  destruct (isinstance e HTTPError); [|destruct (isinstance e URLError)];
    [| |destruct (isinstance e Exception) eqn:Ho];
    cbn [fst snd ret app]; rewrite ?app_nil_r; eexists; (split; [reflexivity|]);
    (split; [|split; [|reflexivity]]);
    try (intros r [= <-]; split; [reflexivity|]; split;
         [right; reflexivity | reflexivity]);
    try discriminate.
  intros e' [= <-]; split; reflexivity.
Qed.

(** The probe logs the GET first.  It answers under the name [ollama_http],
    unless an exception that is not an [Exception] reaches it. *)
Lemma probe_outcome :
  exists t o,
    _probe_ollama_http env = (EvHttpGet ollama_url :: t, o)
    /\ (t = [] \/ t = [EvHttpRead])
    /\ (forall r, o = Return r ->
          name_of r = Some "ollama_http" /\ valid_status r
          /\ map fst r = ["name"; "status"; "details"])
    /\ (forall e, o = Raise e -> probe_fault env e /\ isinstance e Exception = false).
Proof.
  unfold probe_fault, _probe_ollama_http, call, ollama_url.
  destruct (urlopen env "http://localhost:11434/api/version" 5) as [resp|e].
  - cbn [bind ret app]. destruct (resp_read resp) as [body|e] eqn:Hread.
    + cbn [try_except]. eexists _, _; split; [reflexivity|].
      split; [now right|]. split; [|discriminate].
      intros r [= <-]; split; [reflexivity|]; split; [left|]; reflexivity.
    + destruct (probe_handlers
                  [EvHttpGet "http://localhost:11434/api/version"; EvHttpRead] e)
        as (o & E & R & I & _).
      cbn [app]. rewrite E. eexists _, o; split; [reflexivity|].
      split; [now right|]. split; [exact R|].
      intros e' He'; destruct (I e' He') as [-> Ho]; split; [|exact Ho].
      right; exists resp; split; [reflexivity | exact Hread].
  - cbn [bind].
    destruct (probe_handlers [EvHttpGet "http://localhost:11434/api/version"] e)
      as (o & E & R & I & _).
    rewrite E. eexists _, o; split; [reflexivity|].
    split; [now left|]. split; [exact R|].
    intros e' He'; destruct (I e' He') as [-> Ho]; split; [now left | exact Ho].
Qed.

Let first_variant : list string := ["--version"].
Let second_variant : list string := ["version"].
Let run1 : event := EvSubprocess ("ollama" :: first_variant).
Let run2 : event := EvSubprocess ("ollama" :: second_variant).

(** The paths through [check_ollama_cli]: the first variant decides, by
    returning or by an exception that is let through; the first is skipped
    and the second decides, in either way; both are skipped and the HTTP
    probe decides. *)
Lemma check_ollama_cli_paths :
  (exists r,
      try_variant env first_variant = ([run1], Return (ReturnValue r))
      /\ check_ollama_cli env = ([run1], Return r))
  \/ (exists e,
        try_variant env first_variant = ([run1], Raise e)
        /\ check_ollama_cli env = ([run1], Raise e))
  \/ (exists r,
        skipped env first_variant
        /\ try_variant env second_variant = ([run2], Return (ReturnValue r))
        /\ check_ollama_cli env = ([run1; run2], Return r))
  \/ (exists e,
        skipped env first_variant
        /\ try_variant env second_variant = ([run2], Raise e)
        /\ check_ollama_cli env = ([run1; run2], Raise e))
  \/ (exists t o,
        skipped env first_variant /\ skipped env second_variant
        /\ _probe_ollama_http env = (EvHttpGet ollama_url :: t, o)
        /\ (t = [] \/ t = [EvHttpRead])
        /\ check_ollama_cli env = (run1 :: run2 :: EvHttpGet ollama_url :: t, o)).
Proof.
  remember (check_ollama_cli env) as m eqn:Hm.
  unfold check_ollama_cli, try_variants in Hm; cbn [ollama_loop] in Hm.
  destruct (try_variant_outcome env first_variant) as (x1 & E1 & S1 & _).
  destruct (try_variant_outcome env second_variant) as (x2 & E2 & S2 & _).
  fold run1 in E1; fold run2 in E2.
  subst first_variant second_variant.
  rewrite E1 in Hm; cbn [bind] in Hm. destruct x1 as [[|r1]|e1].
  - assert (K1 : skipped env ["--version"]) by now apply S1.
    rewrite E2 in Hm; cbn [bind] in Hm. destruct x2 as [[|r2]|e2].
    + assert (K2 : skipped env ["version"]) by now apply S2.
      destruct probe_outcome as (t & o & Ep & Ht & _).
      rewrite Ep in Hm. do 4 right; exists t, o.
      split; [exact K1|]. split; [exact K2|]. split; [exact Ep|].
      split; [exact Ht | exact Hm].
    + do 2 right; left; exists r2.
      split; [exact K1|]. split; [exact E2 | exact Hm].
    + do 3 right; left; exists e2.
      split; [exact K1|]. split; [exact E2 | exact Hm].
  - left; exists r1; split; [exact E1 | exact Hm].
  - right; left; exists e1; split; [exact E1 | exact Hm].
Qed.


End ServiceCheckPaths.
(** ** The service check: when the HTTP fallback runs *)

Lemma try_variant_raise_inv (env : Env) (variant : list string)
    (t : list event) (e : exn) :
  try_variant env variant = (t, Raise e) ->
  ran env variant = Raise e /\ isinstance e Exception = false.
Proof.
  intros E. destruct (try_variant_outcome env variant) as (o & E' & _ & _ & I).
  rewrite E' in E; injection E as _ ->. now apply I.
Qed.

Lemma try_variant_return_inv (env : Env) (variant : list string)
    (t : list event) (r : Result) :
  try_variant env variant = (t, Return (ReturnValue r)) ->
  name_of r = Some "ollama_cli" /\ valid_status r.
Proof.
  intros E. destruct (try_variant_outcome env variant) as (o & E' & _ & R & _).
  rewrite E' in E; injection E as _ ->. now apply R.
Qed.




(** A variant that was run and whose turn did not end with [continue]
    decides the whole check: what its turn gave (a result, or an exception
    let through) is what the check gives, its run is the last thing the
    check did, and the HTTP probe is not reached. *)
Lemma invoked_variant_ends (env : Env) (variant : list string)
    (o : outcome loop_exit) :
  invoked variant (events (check_ollama_cli env)) ->
  try_variant env variant = ([EvSubprocess ("ollama" :: variant)], o) ->
  o <> Return Continue ->
  result (check_ollama_cli env)
  = match o with
    | Return (ReturnValue r) => Return r
    | Return Continue => Return []
    | Raise e => Raise e
    end
  /\ ends_with (EvSubprocess ("ollama" :: variant)) (events (check_ollama_cli env))
  /\ ~ http_probed (events (check_ollama_cli env)).
Proof.
  unfold http_probed, invoked.
  destruct (check_ollama_cli_paths env)
    as [(r & E1 & ->) | [(e & E1 & ->) | [(r & K1 & E2 & ->)
       | [(e & K1 & E2 & ->) | (t & o' & K1 & K2 & Ep & Ht & ->)]]]];
    cbn [events result fst snd].
  - intros [[= <-] | []] E _. rewrite E in E1; injection E1 as ->.
    split; [reflexivity|].
    split; [now exists [] | intros [H | []]; discriminate].
  - intros [[= <-] | []] E _. rewrite E in E1; injection E1 as ->.
    split; [reflexivity|].
    split; [now exists [] | intros [H | []]; discriminate].
  - intros [[= <-] | [[= <-] | []]] E N.
    + rewrite (try_variant_skipped env _ K1) in E; injection E as <-.
      now contradiction N.
    + rewrite E in E2; injection E2 as ->.
      split; [reflexivity|].
      split; [now exists [EvSubprocess ["ollama"; "--version"]]
             | intros [H | [H | []]]; discriminate].
  - intros [[= <-] | [[= <-] | []]] E N.
    + rewrite (try_variant_skipped env _ K1) in E; injection E as <-.
      now contradiction N.
    + rewrite E in E2; injection E2 as ->.
      split; [reflexivity|].
      split; [now exists [EvSubprocess ["ollama"; "--version"]]
             | intros [H | [H | []]]; discriminate].
  - intros [[= <-] | [[= <-] | [H | H]]] E N.
    + rewrite (try_variant_skipped env _ K1) in E; injection E as <-.
      now contradiction N.
    + rewrite (try_variant_skipped env _ K2) in E; injection E as <-.
      now contradiction N.
    + discriminate.
    + destruct Ht as [-> | ->]; [destruct H | destruct H as [H | []]; discriminate].
Qed.

(** A variant that was run and whose turn ended with [return] decides the
    whole check: its result is the check's result, its run is the last
    thing the check did, and the HTTP probe is not reached. *)
Lemma invoked_variant_decides (env : Env) (variant : list string) (r0 : Result) :
  invoked variant (events (check_ollama_cli env)) ->
  try_variant env variant
    = ([EvSubprocess ("ollama" :: variant)], Return (ReturnValue r0)) ->
  result (check_ollama_cli env) = Return r0
  /\ ends_with (EvSubprocess ("ollama" :: variant)) (events (check_ollama_cli env))
  /\ ~ http_probed (events (check_ollama_cli env)).
Proof.
  intros Hi E. apply (invoked_variant_ends env variant _ Hi E). discriminate.
Qed.

Lemma probe_raise_inv (env : Env) (t : list event) (e : exn) :
  _probe_ollama_http env = (t, Raise e) ->
  probe_fault env e /\ isinstance e Exception = false.
Proof.
  intros E. destruct (probe_outcome env) as (t' & o & E' & _ & _ & I).
  rewrite E' in E; injection E as _ ->. now apply I.
Qed.

Lemma probe_return_inv (env : Env) (t : list event) (r : Result) :
  _probe_ollama_http env = (t, Return r) ->
  name_of r = Some "ollama_http" /\ valid_status r
  /\ map fst r = ["name"; "status"; "details"].
Proof.
  intros E. destruct (probe_outcome env) as (t' & o & E' & _ & R & _).
  rewrite E' in E; injection E as _ ->. now apply R.
Qed.

(** With ordinary faults nothing passes the handlers of the service check. *)
Lemma ordinary_run_is_handled (env : Env) (variant : list string)
    (t : list event) (e : exn) :
  ordinary_faults env -> try_variant env variant = (t, Raise e) -> False.
Proof.
  intros O E. apply try_variant_raise_inv in E; destruct E as [H N].
  rewrite (ordinary_run env O _ _ e H) in N; discriminate.
Qed.

Lemma ordinary_probe_is_handled (env : Env) (t : list event) (e : exn) :
  ordinary_faults env -> _probe_ollama_http env = (t, Raise e) -> False.
Proof.
  intros O E. apply probe_raise_inv in E; destruct E as [[H | (resp & H & Hr)] N].
  - rewrite (ordinary_urlopen env O _ _ e H) in N; discriminate.
  - rewrite (ordinary_read env O _ _ resp H e Hr) in N; discriminate.
Qed.

Lemma check_ollama_cli_returns (env : Env) :
  ordinary_faults env ->
  exists log r,
    check_ollama_cli env = (log, Return r)
    /\ printed log = [] /\ valid_status r.
Proof.
  intros O.
  destruct (check_ollama_cli_paths env)
    as [(r & E1 & ->) | [(e & E1 & ->) | [(r & K1 & E2 & ->)
       | [(e & K1 & E2 & ->) | (t & o & K1 & K2 & Ep & Ht & ->)]]]].
  - eexists _, r; split; [reflexivity|]. split; [reflexivity|].
    now apply try_variant_return_inv in E1.
  - destruct (ordinary_run_is_handled env _ _ _ O E1).
  - eexists _, r; split; [reflexivity|]. split; [reflexivity|].
    now apply try_variant_return_inv in E2.
  - destruct (ordinary_run_is_handled env _ _ _ O E2).
  - destruct o as [r|e]; [|destruct (ordinary_probe_is_handled env _ _ O Ep)].
    eexists _, r; split; [reflexivity|].
    split; [destruct Ht as [-> | ->]; reflexivity|].
    now apply probe_return_inv in Ep.
Qed.

(** C10: whenever the service check reaches the HTTP fallback, the result
    it returns is the probe's and is named [ollama_http], whether the probe
    succeeds or fails; on every other path it is named [ollama_cli].  Both
    names occur: the name of the service check's entry depends on the path.
    (The check returns a result whenever the faults it meets are instances
    of [Exception].) *)
Theorem fallback_result_is_named_ollama_http :
  (forall env : Env,
      (forall r,
          result (check_ollama_cli env) = Return r ->
          (http_probed (events (check_ollama_cli env)) ->
           name_of r = Some "ollama_http"
           /\ result (_probe_ollama_http env) = Return r)
          /\ (~ http_probed (events (check_ollama_cli env)) ->
              name_of r = Some "ollama_cli"))
      /\ (ordinary_faults env ->
          exists r, result (check_ollama_cli env) = Return r))
  /\ (exists r, result (check_ollama_cli env_healthy) = Return r
                /\ name_of r = Some "ollama_cli" /\ status_of r = Some "ok")
  /\ (exists r, result (check_ollama_cli env_http_up) = Return r
                /\ name_of r = Some "ollama_http" /\ status_of r = Some "ok")
  /\ (exists r, result (check_ollama_cli env_http_down) = Return r
                /\ name_of r = Some "ollama_http" /\ status_of r = Some "error").
Proof.
  split; [|repeat split; eexists; (split; [reflexivity | split; reflexivity])].
  intros env; split.
  2:{ intros O. destruct (check_ollama_cli_returns env O) as (log & r & E & _).
      exists r; now rewrite E. }
  unfold http_probed.
  destruct (check_ollama_cli_paths env)
    as [(r & E1 & ->) | [(e & E1 & ->) | [(r & K1 & E2 & ->)
       | [(e & K1 & E2 & ->) | (t & o & K1 & K2 & Ep & Ht & ->)]]]];
    cbn [events result fst snd]; intros r0 Hr; try discriminate Hr;
    try (injection Hr as <-); try subst o.
  - split.
    + intros [H | []]; discriminate.
    + intros _. now apply try_variant_return_inv in E1.
  - split.
    + intros [H | [H | []]]; discriminate.
    + intros _. now apply try_variant_return_inv in E2.
  - split.
    + intros _. rewrite Ep; cbn [result snd]. split; [|reflexivity].
      now apply probe_return_inv in Ep.
    + intros H; exfalso; apply H; right; right; left; reflexivity.
Qed.

(** ** The service check: a timeout *)

(** C3, as stated, fails: with the command hanging past its five seconds,
    [subprocess.run] raises [TimeoutExpired], and [check_ollama_cli] does not
    let it out: it returns an error result. *)
Lemma timeout_does_not_propagate :
  ran env_timeout ["--version"] = Raise timeout_expired
  /\ isinstance timeout_expired TimeoutExpired = true
  /\ result (check_ollama_cli env_timeout) <> Raise timeout_expired
  /\ check_ollama_cli env_timeout
     = ([EvSubprocess ["ollama"; "--version"]],
        Return [ ("name", "ollama_cli"); ("status", "error");
                 ("details",
                  "Command error: Command '['ollama', '--version']' timed out after 5 seconds") ]).
Proof.
  split; [reflexivity|]. split; [reflexivity|]. split; [discriminate | reflexivity].
Qed.

(** C3, amended: when a run of the ollama CLI exceeds its 5-second timeout,
    the [TimeoutExpired] it raises is an [Exception], so the blanket handler
    of the service check catches it: [check_ollama_cli] returns the error
    result named [ollama_cli] with details "Command error: " followed by the
    exception's message, tries nothing further, and raises nothing. *)
Theorem timeout_becomes_command_error
    (env : Env) (variant : list string) (e : exn) :
  invoked variant (events (check_ollama_cli env)) ->
  ran env variant = Raise e ->
  isinstance e TimeoutExpired = true ->
  result (check_ollama_cli env)
    = Return (format_result "ollama_cli" false ("Command error: " ++ exn_str e))
  /\ ends_with (EvSubprocess ("ollama" :: variant)) (events (check_ollama_cli env))
  /\ ~ http_probed (events (check_ollama_cli env)).
Proof.
  intros Hi Hr Ht.
  apply invoked_variant_decides; [exact Hi|].
  apply try_variant_raised; [exact Hr| |].
  - now apply timeout_not_file_not_found.
  - now apply timeout_expired_is_ordinary.
Qed.

Lemma timeout_becomes_command_error_witness :
  result (check_ollama_cli env_timeout)
    = Return (format_result "ollama_cli" false
                ("Command error: " ++ exn_str timeout_expired))
  /\ ends_with (EvSubprocess ["ollama"; "--version"])
       (events (check_ollama_cli env_timeout))
  /\ ~ http_probed (events (check_ollama_cli env_timeout)).
Proof.
  apply (timeout_becomes_command_error env_timeout ["--version"] timeout_expired).
  - left; reflexivity.
  - reflexivity.
  - reflexivity.
Defined.

(** ** The service check: a variant that exits with 0 *)

Lemma strip_or_is_trimmed_output (p : CompletedProcess) :
  PyStr.strip (PyStr.or_ (stdout p) (stderr p)) = trimmed_output p.
Proof. unfold trimmed_output; now destruct (stdout p). Qed.

Lemma or_is_success_details (variant : list string) (p : CompletedProcess) :
  PyStr.or_ (trimmed_output p) ("ollama " ++ PyStr.join " " variant ++ " OK")
  = success_details variant p.
Proof. unfold success_details; now destruct (trimmed_output p). Qed.

(** C8, as stated, fails: a command that exits with 0 and prints nothing is
    reported with the line "ollama --version OK", which is neither stream
    trimmed. *)
Lemma silent_success_details_are_not_the_output :
  exists p r,
    ran env_silent_cli ["--version"] = Return p
    /\ returncode p = 0
    /\ result (check_ollama_cli env_silent_cli) = Return r
    /\ status_of r = Some "ok"
    /\ details_of r = Some "ollama --version OK"
    /\ details_of r <> Some (trimmed_output p).
Proof.
  eexists _, _. split; [reflexivity|]. split; [reflexivity|].
  split; [reflexivity|]. split; [reflexivity|]. split; [reflexivity | discriminate].
Qed.

(** C8, amended: for every CLI variant whose run exits with status 0, the
    service check returns status "ok" under the name [ollama_cli], with
    details equal to the captured standard output trimmed (the captured
    standard error trimmed when standard output is empty) whenever that text
    is not empty, and equal to "ollama <variant> OK" when it is empty. *)
Theorem exit_zero_reports_trimmed_output
    (env : Env) (variant : list string) (p : CompletedProcess) :
  invoked variant (events (check_ollama_cli env)) ->
  ran env variant = Return p ->
  returncode p = 0 ->
  result (check_ollama_cli env)
    = Return (format_result "ollama_cli" true (success_details variant p))
  /\ (trimmed_output p <> EmptyString ->
      success_details variant p = trimmed_output p)
  /\ (trimmed_output p = EmptyString ->
      success_details variant p = "ollama " ++ PyStr.join " " variant ++ " OK").
Proof.
  intros Hi Hr Hz. split.
  - refine (proj1 (invoked_variant_decides env variant _ Hi _)).
    rewrite (try_variant_exit_zero env variant p Hr Hz).
    now rewrite strip_or_is_trimmed_output, or_is_success_details.
  - unfold success_details; destruct (trimmed_output p); split; congruence.
Qed.

Lemma exit_zero_reports_trimmed_output_witness :
  result (check_ollama_cli env_second_variant)
    = Return (format_result "ollama_cli" true "v0.1.0").
Proof.
  apply (exit_zero_reports_trimmed_output env_second_variant ["version"]
           {| returncode := 0; stdout := EmptyString; stderr := "  v0.1.0  " |}).
  - right; left; reflexivity.
  - reflexivity.
  - reflexivity.
Defined.

(** ** The runtime check *)

Lemma tuple_ge_3_9 (v : VersionInfo) :
  tuple_ge (as_tuple v) [3; 9] = true <-> at_least_3_9 v.
Proof.
  unfold at_least_3_9, as_tuple; cbn [tuple_ge].
  destruct (Z.eqb_spec (major v) 3) as [E3|N3].
  - destruct (Z.eqb_spec (minor v) 9) as [E9|N9].
    + split; [lia | reflexivity].
    + rewrite Z.ltb_lt; lia.
  - rewrite Z.ltb_lt; lia.
Qed.

(** C5: for every interpreter version, [check_python] returns (it makes no
    external call and raises nothing) a result named [python] whose status
    is "ok" exactly when the version is at least (3, 9) and "error"
    otherwise; the details always contain the detected version, and below
    the minimum they end with the remediation note "(requires >= 3.9)". *)
Theorem check_python_spec (env : Env) :
  exists r details,
    check_python env = ([], Return r)
    /\ name_of r = Some "python"
    /\ details_of r = Some details
    /\ (status_of r = Some "ok" <-> at_least_3_9 (version_info env))
    /\ (status_of r = Some "error" <-> ~ at_least_3_9 (version_info env))
    /\ PyStr.occurs_in (python_version env) details
    /\ (at_least_3_9 (version_info env) ->
        details = "Python " ++ python_version env ++ " detected")
    /\ (~ at_least_3_9 (version_info env) ->
        details = "Python " ++ python_version env ++ " detected (requires >= 3.9)"
        /\ PyStr.occurs_in "(requires >= 3.9)" details).
Proof.
  unfold check_python; cbv zeta.
  pose proof (tuple_ge_3_9 (version_info env)) as T.
  destruct (tuple_ge (as_tuple (version_info env)) [3; 9]); cbn [negb];
    eexists _, _; (split; [reflexivity|]); (split; [reflexivity|]);
    (split; [reflexivity|]); cbn [status_of format_result dict_get String.eqb].
  - assert (A : at_least_3_9 (version_info env)) by now apply T.
    split; [tauto|]. split; [split; [discriminate | tauto]|].
    split; [apply (occurs_in_middle "Python ")|].
    split; [reflexivity | tauto].
  - assert (A : ~ at_least_3_9 (version_info env)) by (intros K; apply T in K; discriminate).
    split; [split; [discriminate | tauto]|]. split; [tauto|].
    split.
    + exists "Python ", " detected (requires >= 3.9)".
      now rewrite !append_assoc.
    + split; [tauto|]. intros _. split.
      * now rewrite !append_assoc.
      * exists ("Python " ++ python_version env ++ " detected "), EmptyString.
        now rewrite !append_assoc.
Qed.

(** ** The dependency check *)

(** [check_import], call by call: one import, then the lookup and the
    formatting of the version. *)
Lemma check_import_eq (env : Env) (module_name : string)
    (display_name : option string) :
  check_import env module_name display_name
  = let display := match display_name with
                   | Some d => PyStr.or_ d module_name
                   | None => module_name
                   end in
    ([EvImport module_name],
     match import_module env module_name with
     | Return m =>
         match version_text m with
         | Return text =>
             Return (format_result display true
                       ("Import OK (version: " ++ text ++ ")"))
         | Raise e => import_handled display e
         end
     | Raise e => import_handled display e
     end).
Proof.
  cbv zeta. unfold check_import, call, lift, getattr, version_text, import_handled.
  destruct (import_module env module_name) as [m|e];
    cbn [bind try_except find fst snd ret raise app].
  - destruct (dunder_version m) as [v|e];
      [|destruct (isinstance e AttributeError)];
      cbn [bind try_except find fst snd ret raise app format_ str_object].
    + destruct (format_ v) as [text|e];
        cbn [bind try_except find fst snd ret raise app]; [reflexivity|].
      destruct (isinstance e Exception); reflexivity.
    + reflexivity.
    + destruct (isinstance e Exception); reflexivity.
  - destruct (isinstance e Exception); reflexivity.
Qed.



(** ** The database check *)

Section SqliteFacts.

Variable env : Env.

(** The sequence ends in exactly one way. *)
Lemma store_outcome_total : exists o, store_outcome env o.
Proof.
  destruct (sqlite3_connect env ":memory:") as [[]|e] eqn:H0;
    [|eexists; eapply open_fails; eassumption].
  destruct (sqlite3_execute env sql_create []) as [c1|e] eqn:H1;
    [|eexists; eapply create_fails; eassumption].
  destruct (sqlite3_execute env sql_insert [SqlText "ok"]) as [c2|e] eqn:H2;
    [|eexists; eapply insert_fails; eassumption].
  destruct (sqlite3_execute env sql_select []) as [cur|e] eqn:H3;
    [|eexists; eapply select_fails; eassumption].
  eexists; eapply select_fetches; eassumption.
Qed.

Lemma store_outcome_functional (o1 o2 : outcome (option (list sql_value))) :
  store_outcome env o1 -> store_outcome env o2 -> o1 = o2.
Proof.
  intros H1 H2; destruct H1; destruct H2; congruence.
Qed.

(** The exit of the [with] block by an exception: the rollback, then the
    handler. *)
Ltac sqlite_undone :=
  match goal with
  | env : Env |- _ =>
      destruct (sqlite3_rollback env) as [[]|?e'];
      cbn [bind try_except find fst snd ret app];
      repeat match goal with
             | |- context [isinstance ?e Exception] =>
                 destruct (isinstance e Exception);
                 cbn [bind try_except find fst snd ret app]
             end;
      reflexivity
  end.

(** [check_sqlite], call by call. *)
Lemma check_sqlite_eq :
  check_sqlite env
  = let opened := [EvSqlConnect ":memory:"] in
    let undone (log : list event) (e : exn) :=
      ((log ++ [EvSqlRollback])%list, sqlite_handled (after_rollback env e)) in
    match sqlite3_connect env ":memory:" with
    | Raise e => (opened, sqlite_handled e)
    | Return _ =>
      let created := (opened ++ [EvSqlExecute sql_create])%list in
      match sqlite3_execute env sql_create [] with
      | Raise e => undone created e
      | Return _ =>
        let inserted := (created ++ [EvSqlExecute sql_insert])%list in
        match sqlite3_execute env sql_insert [SqlText "ok"] with
        | Raise e => undone inserted e
        | Return _ =>
          let selected := (inserted ++ [EvSqlExecute sql_select])%list in
          match sqlite3_execute env sql_select [] with
          | Raise e => undone selected e
          | Return cur =>
            let fetched := (selected ++ [EvSqlFetchone])%list in
            match fetchone cur with
            | Raise e => undone fetched e
            | Return (Some []) => undone fetched index_error
            | Return row =>
              let ok := match row with
                        | Some (v :: _) => sql_eq_text v "ok"
                        | _ => false
                        end in
              match sqlite3_commit env with
              | Return _ =>
                  ((fetched ++ [EvSqlCommit])%list,
                   Return (format_result "sqlite" ok
                             (if ok then "In-memory DB create/insert/select OK"
                              else "Unexpected query result")))
              | Raise e => undone (fetched ++ [EvSqlCommit])%list e
              end
            end
          end
        end
      end
    end.
Proof.
  cbv zeta.
  unfold check_sqlite, with_connect, rolled_back, call, sqlite_handled, after_rollback;
    fold sql_create sql_insert sql_select.
  destruct (sqlite3_connect env ":memory:") as [[]|e0];
    cbn [bind try_except find fst snd ret app];
    [|destruct (isinstance e0 Exception); reflexivity].
  destruct (sqlite3_execute env sql_create []) as [c1|e1];
    cbn [bind try_except find fst snd ret app]; [|sqlite_undone].
  destruct (sqlite3_execute env sql_insert [SqlText "ok"]) as [c2|e2];
    cbn [bind try_except find fst snd ret app]; [|sqlite_undone].
  destruct (sqlite3_execute env sql_select []) as [cur|e3];
    cbn [bind try_except find fst snd ret app]; [|sqlite_undone].
  destruct (fetchone cur) as [[[|v row]|]|e4];
    cbn [bind try_except find fst snd ret app raise]; try sqlite_undone;
    (destruct (sqlite3_commit env) as [[]|ec];
     cbn [bind try_except find fst snd ret app]; [reflexivity | sqlite_undone]).
Qed.

(** What [check_sqlite] gives, by how the sequence ended and by what
    leaves the block. *)
Lemma check_sqlite_result (o : outcome (option (list sql_value))) :
  store_outcome env o ->
  result (check_sqlite env)
  = match leaving_block env o with
    | Some e => sqlite_handled e
    | None =>
        let ok := match o with
                  | Return (Some (v :: _)) => sql_eq_text v "ok"
                  | _ => false
                  end in
        Return (format_result "sqlite" ok
                  (if ok then "In-memory DB create/insert/select OK"
                   else "Unexpected query result"))
    end.
Proof.
  intros H; rewrite check_sqlite_eq; cbv zeta; unfold leaving_block.
  destruct H as [e H0 | e H0 H1 | c1 e H0 H1 H2 | c1 c2 e H0 H1 H2 H3
                | c1 c2 cur H0 H1 H2 H3];
    rewrite ?H0, ?H1, ?H2, ?H3; try reflexivity.
  destruct (fetchone cur) as [[[|v row]|]|e4]; try reflexivity;
    destruct (sqlite3_commit env) as [[]|ec]; reflexivity.
Qed.

(** The database check prints nothing. *)
Lemma check_sqlite_prints_nothing : printed (events (check_sqlite env)) = [].
Proof.
  rewrite check_sqlite_eq; cbv zeta.
  destruct (sqlite3_connect env ":memory:") as [[]|e0]; [|reflexivity].
  destruct (sqlite3_execute env sql_create []) as [c1|e1]; [|reflexivity].
  destruct (sqlite3_execute env sql_insert [SqlText "ok"]) as [c2|e2]; [|reflexivity].
  destruct (sqlite3_execute env sql_select []) as [cur|e3]; [|reflexivity].
  destruct (fetchone cur) as [[[|v row]|]|e4]; try reflexivity;
    destruct (sqlite3_commit env) as [[]|ec]; reflexivity.
Qed.

End SqliteFacts.

Lemma sql_eq_text_spec (v : sql_value) (text : string) :
  sql_eq_text v text = true <-> v = SqlText text.
Proof.
  destruct v as [|n|s|b]; simpl; try (split; [discriminate | intros [=]]).
  rewrite String.eqb_eq; split; [now intros -> | now intros [= ->]].
Qed.

Lemma sqlite_handled_result (e : exn) (r : Result) :
  sqlite_handled e = Return r ->
  isinstance e Exception = true
  /\ r = format_result "sqlite" false ("SQLite error: " ++ exn_str e).
Proof.
  unfold sqlite_handled; destruct (isinstance e Exception); [|discriminate].
  intros [= <-]; split; reflexivity.
Qed.

(** C7, as stated, fails, in two ways.  The result is returned only after
    the [with] block has ended, and the block ends with a commit: when the
    row comes back as inserted but that commit fails, the status is
    "error".  And an exception that is not an [Exception], here the
    interrupt of the user while the table is created, is not caught. *)
Lemma fetched_row_is_not_enough :
  (store_outcome env_commit_fails (Return (Some [SqlText "ok"]))
   /\ result (check_sqlite env_commit_fails)
      = Return [ ("name", "sqlite"); ("status", "error");
                 ("details", "SQLite error: database or disk is full") ])
  /\ (sqlite3_execute env_interrupted_create sql_create [] = Raise keyboard_interrupt
      /\ result (check_sqlite env_interrupted_create) = Raise keyboard_interrupt).
Proof.
  split; [split; [|reflexivity] | split; reflexivity].
  apply (select_fetches _ {| fetchone := Return None |} {| fetchone := Return None |}
           {| fetchone := Return (Some [SqlText "ok"]) |}); reflexivity.
Qed.

(** C7, amended: [check_sqlite] returns status "ok" if and only if the
    primary-key query retrieved a row whose value is the inserted constant
    "ok" and the commit that ends the [with] block succeeds.  An exception
    that leaves the block is caught when it is an instance of [Exception],
    and converted to a status "error" result whose details are
    "SQLite error: " followed by its message; an exception that is not an
    instance of [Exception] is not caught.  What leaves the block is: the
    exception of the open, when the store cannot be opened; the exception
    of the create, the insert or the select, or of the commit, when the
    rollback that follows succeeds; and the rollback's own exception when
    it fails.  A result that is returned is named [sqlite] and has status
    "ok" or "error". *)
Theorem check_sqlite_spec (env : Env) :
  let handled e :=
    result (check_sqlite env)
    = (if isinstance e Exception
       then Return (format_result "sqlite" false ("SQLite error: " ++ exn_str e))
       else Raise e)
    /\ PyStr.occurs_in (exn_str e) ("SQLite error: " ++ exn_str e) in
  exists o,
    store_outcome env o
    /\ ((exists r, result (check_sqlite env) = Return r /\ status_of r = Some "ok")
        <-> row_is_ok o /\ sqlite3_commit env = Return tt)
    /\ (row_is_ok o -> sqlite3_commit env = Return tt ->
        result (check_sqlite env)
        = Return (format_result "sqlite" true "In-memory DB create/insert/select OK"))
    /\ (forall e, o = Raise e ->
          handled (match sqlite3_connect env ":memory:" with
                   | Raise _ => e
                   | Return _ => after_rollback env e
                   end))
    /\ (forall row e, o = Return row -> row <> Some [] ->
          sqlite3_commit env = Raise e -> handled (after_rollback env e))
    /\ (forall r, result (check_sqlite env) = Return r ->
          name_of r = Some "sqlite" /\ valid_status r).
Proof.
  cbv zeta. destruct (store_outcome_total env) as [o H].
  pose proof (check_sqlite_result env o H) as E; cbv zeta in E.
  exists o; split; [exact H|].
  assert (OK : row_is_ok o -> sqlite3_commit env = Return tt ->
               result (check_sqlite env)
               = Return (format_result "sqlite" true
                           "In-memory DB create/insert/select OK")).
  { intros (rest & ->) Hc; rewrite E; unfold leaving_block; rewrite Hc. reflexivity. }
  split; [|split; [exact OK|]].
  - split.
    + intros (r & Hr & Hs). rewrite E in Hr.
      destruct (leaving_block env o) as [e|] eqn:L.
      * apply sqlite_handled_result in Hr; destruct Hr as [_ ->]; discriminate Hs.
      * injection Hr as <-. unfold leaving_block in L.
        destruct o as [[[|v row]|]|e]; try discriminate Hs;
          try (destruct (sqlite3_connect env ":memory:"); discriminate L).
        destruct (sql_eq_text v "ok") eqn:Hv; [|discriminate Hs].
        apply sql_eq_text_spec in Hv; subst v.
        split; [now exists row|].
        destruct (sqlite3_commit env) as [[]|ec]; [reflexivity | discriminate L].
    + intros [Hrow Hc]. eexists; split; [exact (OK Hrow Hc) | reflexivity].
  - split; [|split].
    + intros e ->; rewrite E; unfold leaving_block.
      destruct (sqlite3_connect env ":memory:");
        (split; [reflexivity | apply occurs_in_end]).
    + intros row e -> Hrow Hc; rewrite E; unfold leaving_block; rewrite Hc.
      destruct row as [[|v row]|]; [now contradiction Hrow| |];
        (split; [reflexivity | apply occurs_in_end]).
    + intros r Hr; rewrite E in Hr.
      destruct (leaving_block env o) as [e|].
      * apply sqlite_handled_result in Hr; destruct Hr as [_ ->].
        split; [reflexivity | right; reflexivity].
      * injection Hr as <-; split; [reflexivity|].
        match goal with
        | |- valid_status (format_result _ ?b _) =>
            destruct b; [left | right]; reflexivity
        end.
Qed.
(** ** Every check returns one result, unless it is interrupted *)

(** The logs of two computations in sequence. *)
Lemma bind_silent {A B : Type} (m : M A) (k : A -> M B) :
  printed (events m) = [] ->
  (forall a, printed (events (k a)) = []) ->
  printed (events (bind m k)) = [].
Proof.
  destruct m as [t [a|e]]; cbn [bind events fst]; intros Hm Hk; [|exact Hm].
  specialize (Hk a); destruct (k a) as [t' o]; cbn [events fst] in *.
  revert Hm; clear -Hk; induction t as [|ev t IH]; intros Hm; [exact Hk|].
  destruct ev; cbn [printed app] in *; try discriminate; now apply IH.
Qed.


Section ChecksReturn.

Variable env : Env.

Lemma check_python_returns :
  exists r,
    check_python env = ([], Return r)
    /\ name_of r = Some "python" /\ valid_status r
    /\ (at_least_3_9 (version_info env) -> status_ok r).
Proof.
  unfold check_python; cbv zeta.
  pose proof (tuple_ge_3_9 (version_info env)) as T.
  destruct (tuple_ge (as_tuple (version_info env)) [3; 9]);
    eexists; (split; [reflexivity|]); (split; [reflexivity|]).
  - split; [left; reflexivity | reflexivity].
  - split; [right; reflexivity|]. intros K; apply T in K; discriminate.
Qed.


(** A module that loads and whose version can be read is reported "ok". *)
Lemma check_import_resolves (module_name display : string) :
  (exists m text,
      import_module env module_name = Return m /\ version_text m = Return text) ->
  exists r,
    check_import env module_name (Some display) = ([EvImport module_name], Return r)
    /\ name_of r = Some (PyStr.or_ display module_name) /\ status_ok r.
Proof.
  intros (m & text & Hm & Hv). rewrite check_import_eq; cbv zeta. rewrite Hm, Hv.
  eexists; split; [reflexivity|]. split; reflexivity.
Qed.


Lemma check_ollama_cli_answers :
  cli_answers env ->
  exists log details,
    printed log = []
    /\ check_ollama_cli env = (log, Return (format_result "ollama_cli" true details)).
Proof.
  unfold check_ollama_cli, try_variants; cbn [ollama_loop].
  intros [(p & H & Hz) | [K1 (p & H & Hz)]].
  - rewrite (try_variant_exit_zero env _ p H Hz); cbn [bind ret app].
    eexists _, _; split; [|reflexivity]; reflexivity.
  - rewrite (try_variant_skipped env _ K1); cbn [bind ret app].
    rewrite (try_variant_exit_zero env _ p H Hz); cbn [bind ret app].
    eexists _, _; split; [|reflexivity]; reflexivity.
Qed.




(** A store that works is reported "ok". *)
Lemma check_sqlite_works :
  database_works env ->
  exists log r,
    check_sqlite env = (log, Return r)
    /\ printed log = [] /\ name_of r = Some "sqlite" /\ status_ok r.
Proof.
  intros (o & H & (rest & ->) & Hc).
  pose proof (check_sqlite_result env _ H) as E; cbv zeta in E.
  unfold leaving_block in E; rewrite Hc in E.
  pose proof (check_sqlite_prints_nothing env) as P.
  destruct (check_sqlite env) as [log x]; cbn [events result fst snd] in *.
  subst x. eexists _, _; split; [reflexivity|]. split; [exact P|].
  split; reflexivity.
Qed.

(** [main] runs the eight checks in order, appends each result, prints. *)
Lemma main_eq (r1 r2 r3 r4 r5 r6 r7 r8 : Result)
    (t2 t3 t4 t5 t6 t7 t8 : list event) :
  check_python env = ([], Return r1) ->
  check_import env "langchain" (Some "langchain") = (t2, Return r2) ->
  check_import env "langchain_community" (Some "langchain-community") = (t3, Return r3) ->
  check_import env "langchain_ollama" (Some "langchain-ollama") = (t4, Return r4) ->
  check_import env "dotenv" (Some "python-dotenv") = (t5, Return r5) ->
  check_import env "pypdf" (Some "pypdf") = (t6, Return r6) ->
  check_ollama_cli env = (t7, Return r7) ->
  check_sqlite env = (t8, Return r8) ->
  main env =
    ((t2 ++ t3 ++ t4 ++ t5 ++ t6 ++ t7 ++ t8
      ++ [EvPrint [ ("results", [r1; r2; r3; r4; r5; r6; r7; r8]) ]])%list,
     Return tt).
Proof.
  intros E1 E2 E3 E4 E5 E6 E7 E8; unfold main, call; cbv zeta.
  rewrite E1, E2, E3, E4, E5, E6, E7, E8; reflexivity.
Qed.


End ChecksReturn.

Lemma printed_app (a b : list event) : printed (a ++ b) = (printed a ++ printed b)%list.
Proof.
  induction a as [|ev a IH]; [reflexivity|].
  destruct ev; cbn [printed app]; rewrite IH; reflexivity.
Qed.








(** ** The end-to-end report *)

Lemma working_store_works (env : Env) :
  sqlite3_connect env ":memory:" = Return tt ->
  sqlite3_execute env = working_execute ->
  sqlite3_commit env = Return tt ->
  database_works env.
Proof.
  intros H0 H1 Hc. exists (Return (Some [SqlText "ok"])); split; [|split; [now exists []|exact Hc]].
  apply (select_fetches env {| fetchone := Return None |} {| fetchone := Return None |}
           {| fetchone := Return (Some [SqlText "ok"]) |});
    try assumption; rewrite H1; reflexivity.
Qed.

Lemma healthy_modules_resolvable (env : Env) :
  import_module env = import_module env_healthy -> modules_resolvable env.
Proof.
  intros H name Hin; rewrite H.
  repeat (destruct Hin as [<- | Hin]; [eexists _, _; split; reflexivity|]). destruct Hin.
Qed.

(** C4, as stated, fails, in two ways.  With Python 3.8 and every module,
    the CLI and the store in order, the [python] entry is an error.  And
    with [--version] failing for a reason of its own while [version] would
    exit with 0, the [ollama_cli] entry is an error: [version] is never
    tried. *)
Lemma healthy_premises_do_not_make_every_status_ok :
  (modules_resolvable env_py38
   /\ cli_exits_zero_on_a_variant env_py38
   /\ database_works env_py38
   /\ exists report,
        printed (events (main env_py38)) = [report] /\ ~ all_ok_report report)
  /\ (modules_resolvable env_first_variant_fails
      /\ cli_exits_zero_on_a_variant env_first_variant_fails
      /\ database_works env_first_variant_fails
      /\ exists report,
           printed (events (main env_first_variant_fails)) = [report]
           /\ ~ all_ok_report report).
Proof.
  split.
  - split; [now apply healthy_modules_resolvable|].
    split; [exists ["--version"]; split; [now left | eexists; split; reflexivity]|].
    split; [now apply working_store_works|].
    eexists; split; [reflexivity|].
    intros (results & [= <-] & _ & F & _).
    inversion F as [|? ? Hbad _]; discriminate.
  - split; [now apply healthy_modules_resolvable|].
    split; [exists ["version"]; split; [right; now left | eexists; split; reflexivity]|].
    split; [now apply working_store_works|].
    eexists; split; [reflexivity|].
    intros (results & [= <-] & _ & F & _).
    do 6 (inversion F as [|? ? _ F']; clear F; rename F' into F; subst).
    inversion F as [|? ? Hbad _]; discriminate.
Qed.

(** C4, amended: when the interpreter is at least Python 3.9, every
    dependency module is resolvable (it loads, and its version can be read
    or is absent), the ollama CLI exits 0 on [--version] (or rejects
    [--version] as an unknown command or flag and exits 0 on [version]),
    and the in-memory database works (the inserted row comes back and the
    commit that ends the block succeeds), [main] prints a report whose
    results array has length 8, every entry has status "ok", and the names
    are, in order: python, langchain, langchain-community,
    langchain-ollama, python-dotenv, pypdf, ollama_cli, sqlite. *)
Theorem healthy_run_report (env : Env) :
  at_least_3_9 (version_info env) ->
  modules_resolvable env ->
  cli_answers env ->
  database_works env ->
  exists log report,
    main env = (log, Return tt)
    /\ printed log = [report]
    /\ all_ok_report report.
Proof.
  intros Hv Hm Hc Hd.
  assert (R : forall name, In name required_modules ->
                 exists m text,
                   import_module env name = Return m
                   /\ version_text m = Return text) by exact Hm.
  destruct (check_python_returns env) as (r1 & E1 & N1 & _ & S1).
  destruct (check_import_resolves env "langchain" "langchain") as (r2 & E2 & N2 & S2);
    [apply R; cbn [required_modules In]; tauto|].
  destruct (check_import_resolves env "langchain_community" "langchain-community")
    as (r3 & E3 & N3 & S3); [apply R; cbn [required_modules In]; tauto|].
  destruct (check_import_resolves env "langchain_ollama" "langchain-ollama")
    as (r4 & E4 & N4 & S4); [apply R; cbn [required_modules In]; tauto|].
  destruct (check_import_resolves env "dotenv" "python-dotenv") as (r5 & E5 & N5 & S5);
    [apply R; cbn [required_modules In]; tauto|].
  destruct (check_import_resolves env "pypdf" "pypdf") as (r6 & E6 & N6 & S6);
    [apply R; cbn [required_modules In]; tauto|].
  destruct (check_ollama_cli_answers env Hc) as (t7 & details & P7 & E7).
  destruct (check_sqlite_works env Hd) as (t8 & r8 & E8 & P8 & N8 & S8).
  eexists _, _.
  split; [apply (main_eq env r1 r2 r3 r4 r5 r6
                   (format_result "ollama_cli" true details) r8); eassumption|].
  split; [cbn [app printed]; rewrite !printed_app, P7, P8; reflexivity|].
  eexists; split; [reflexivity|]. split; [reflexivity|]. split.
  - repeat (constructor;
            [first [ now apply S1 | exact S2 | exact S3 | exact S4 | exact S5
                   | exact S6 | reflexivity | exact S8 ]|]).
    constructor.
  - cbn [map]; rewrite N1, N2, N3, N4, N5, N6, N8; reflexivity.
Qed.

Lemma healthy_run_report_witness :
  exists log report,
    main env_healthy = (log, Return tt)
    /\ printed log = [report]
    /\ all_ok_report report.
Proof.
  apply (healthy_run_report env_healthy).
  - right; split; [reflexivity | cbn; lia].
  - now apply healthy_modules_resolvable.
  - left; eexists; split; reflexivity.
  - now apply working_store_works.
Defined.

(** ** Two runs *)

Section TwoRuns.







Variable env : Env.





End TwoRuns.








(** ** Worked examples *)

Example strip_ex : PyStr.strip "  v0.1.0
" = "v0.1.0".
Proof. reflexivity. Qed.

Example lower_ex :
  PyStr.lower "Error: Unknown Command" = "error: unknown command".
Proof. reflexivity. Qed.

Example of_int_ex :
  (PyStr.of_int 127, PyStr.of_int 0, PyStr.of_int (-9)) = ("127", "0", "-9").
Proof. reflexivity. Qed.

Example contains_ex :
  PyStr.contains "unknown flag" "error: unknown flag: --version" = true
  /\ PyStr.contains "unknown flag" "error: could not connect" = false.
Proof. split; reflexivity. Qed.

Example handlers_ex :
  isinstance timeout_expired Exception = true
  /\ isinstance timeout_expired FileNotFoundError = false
  /\ isinstance file_not_found OSError = true
  /\ isinstance connection_refused HTTPError = false.
Proof. repeat split. Qed.

Example python_38_ex :
  check_python env_py38
  = ([], Return [ ("name", "python"); ("status", "error");
                  ("details", "Python 3.8.10 detected (requires >= 3.9)") ]).
Proof. reflexivity. Qed.

Example python_311_ex :
  check_python env_healthy
  = ([], Return [ ("name", "python"); ("status", "ok");
                  ("details", "Python 3.11.4 detected") ]).
Proof. reflexivity. Qed.

Example import_missing_ex :
  result (check_import env_healthy "chromadb" None)
  = Return [ ("name", "chromadb"); ("status", "error");
             ("details", "Import failed: No module named 'chromadb'") ].
Proof. reflexivity. Qed.

Example cli_missing_ex :
  check_ollama_cli env_no_cli
  = ([EvSubprocess ["ollama"; "--version"]],
     Return [ ("name", "ollama_cli"); ("status", "error");
              ("details", "ollama CLI not found on PATH") ]).
Proof. reflexivity. Qed.

Example first_variant_fails_ex :
  check_ollama_cli env_first_variant_fails
  = ([EvSubprocess ["ollama"; "--version"]],
     Return [ ("name", "ollama_cli"); ("status", "error");
              ("details", "Exit code 1: Error: could not connect to ollama app") ]).
Proof. reflexivity. Qed.

Example http_fallback_ex :
  check_ollama_cli env_http_up
  = ([ EvSubprocess ["ollama"; "--version"]; EvSubprocess ["ollama"; "version"];
       EvHttpGet "http://localhost:11434/api/version"; EvHttpRead ],
     Return [ ("name", "ollama_http"); ("status", "ok");
              ("details", "HTTP 200 OK @ /api/version: 0.5.1") ]).
Proof. reflexivity. Qed.

Example store_cannot_open_ex :
  check_sqlite env_no_store
  = ([EvSqlConnect ":memory:"],
     Return [ ("name", "sqlite"); ("status", "error");
              ("details", "SQLite error: unable to open database file") ]).
Proof. reflexivity. Qed.

Example import_without_version_ex :
  check_import env_healthy "dotenv" (Some "python-dotenv")
  = ([EvImport "dotenv"],
     Return [ ("name", "python-dotenv"); ("status", "ok");
              ("details", "Import OK (version: unknown)") ]).
Proof. reflexivity. Qed.

Example import_exits_ex :
  check_import env_exit_on_import "langchain_ollama" (Some "langchain-ollama")
  = ([EvImport "langchain_ollama"], Raise system_exit).
Proof. reflexivity. Qed.

Example commit_fails_ex :
  check_sqlite env_commit_fails
  = ([ EvSqlConnect ":memory:"; EvSqlExecute sql_create; EvSqlExecute sql_insert;
       EvSqlExecute sql_select; EvSqlFetchone; EvSqlCommit; EvSqlRollback ],
     Return [ ("name", "sqlite"); ("status", "error");
              ("details", "SQLite error: database or disk is full") ]).
Proof. reflexivity. Qed.

(** * Further properties *)

(** ** The loop over the variants *)

Section LoopFacts.

Variable env : Env.

Lemma loop_all_skipped (variants : list (list string)) :
  Forall (skipped env) variants ->
  ollama_loop env variants
  = ((map run_of variants ++ events (_probe_ollama_http env))%list,
     result (_probe_ollama_http env)).
Proof.
  induction 1 as [|variant rest Hs _ IH]; cbn [ollama_loop map app].
  - now destruct (_probe_ollama_http env).
  - rewrite (try_variant_skipped env _ Hs); cbn [bind]. rewrite IH. reflexivity.
Qed.

Lemma loop_decided (before : list (list string)) (variant : list string)
    (rest : list (list string)) (r : Result) :
  Forall (skipped env) before ->
  try_variant env variant = ([run_of variant], Return (ReturnValue r)) ->
  ollama_loop env (before ++ variant :: rest)
  = ((map run_of before ++ [run_of variant])%list, Return r).
Proof.
  intros Hb E; induction Hb as [|b before Hs _ IH]; cbn [ollama_loop map app].
  - rewrite E; reflexivity.
  - rewrite (try_variant_skipped env _ Hs); cbn [bind]. rewrite IH. reflexivity.
Qed.

Lemma loop_interrupted (before : list (list string)) (variant : list string)
    (rest : list (list string)) (e : exn) :
  Forall (skipped env) before ->
  try_variant env variant = ([run_of variant], Raise e) ->
  ollama_loop env (before ++ variant :: rest)
  = ((map run_of before ++ [run_of variant])%list, Raise e).
Proof.
  intros Hb E; induction Hb as [|b before Hs _ IH]; cbn [ollama_loop map app].
  - rewrite E; reflexivity.
  - rewrite (try_variant_skipped env _ Hs); cbn [bind]. rewrite IH. reflexivity.
Qed.

End LoopFacts.

(** X1: the loop of the service check, for any list of variants: it runs the
    variants in order; when all of them are skipped it ends with the HTTP
    probe, whose result it returns; and the first variant that is not
    skipped ends it, with no later call, and with what that variant's turn
    gave: its result, or the exception of its run when that is not an
    instance of [Exception] and so passes the handlers. *)
Theorem ollama_loop_runs_until_first_decision (env : Env) :
  (forall variants,
      Forall (skipped env) variants ->
      events (ollama_loop env variants)
      = (map run_of variants ++ events (_probe_ollama_http env))%list
      /\ result (ollama_loop env variants) = result (_probe_ollama_http env))
  /\ (forall before variant rest,
        Forall (skipped env) before ->
        ~ skipped env variant ->
        events (ollama_loop env (before ++ variant :: rest))
        = (map run_of before ++ [run_of variant])%list
        /\ ((exists r,
               try_variant env variant = ([run_of variant], Return (ReturnValue r))
               /\ result (ollama_loop env (before ++ variant :: rest)) = Return r)
            \/ (exists e,
                  ran env variant = Raise e /\ isinstance e Exception = false
                  /\ try_variant env variant = ([run_of variant], Raise e)
                  /\ result (ollama_loop env (before ++ variant :: rest)) = Raise e))).
Proof.
  split.
  - intros variants H; rewrite (loop_all_skipped env variants H); split; reflexivity.
  - intros before variant rest Hb Hn.
    destruct (try_variant_outcome env variant) as (x & E & S & _ & I).
    destruct x as [[|r]|e]; [exfalso; apply Hn, S; reflexivity| |].
    + rewrite (loop_decided env before variant rest r Hb E).
      split; [reflexivity|]. left; exists r; split; [exact E | reflexivity].
    + rewrite (loop_interrupted env before variant rest e Hb E).
      split; [reflexivity|]. right; exists e.
      destruct (I e eq_refl) as [Hr Ho].
      split; [exact Hr|]. split; [exact Ho|]. split; [exact E | reflexivity].
Qed.

(** ** What the service check calls *)

(** X2: in every environment the service check makes no call other than
    running [ollama --version], running [ollama version], the GET of the
    version URL and the read of its response.  It always starts with
    [ollama --version]; it runs [ollama version] exactly when [--version]
    was skipped; and it runs no other command line. *)
Theorem service_check_call_discipline (env : Env) :
  let log := events (check_ollama_cli env) in
  Forall service_call log
  /\ hd_error log = Some (run_of ["--version"])
  /\ (invoked ["version"] log <-> skipped env ["--version"])
  /\ (subprocesses log = [ ["ollama"; "--version"] ]
      \/ subprocesses log = [ ["ollama"; "--version"]; ["ollama"; "version"] ]).
Proof.
  cbv zeta; unfold invoked, service_call, run_of.
  destruct (check_ollama_cli_paths env)
    as [(r & E1 & ->) | [(e & E1 & ->) | [(r & K1 & E2 & ->)
       | [(e & K1 & E2 & ->) | (t & o & K1 & K2 & Ep & Ht & ->)]]]];
    cbn [events fst].
  - split; [repeat constructor; tauto|]. split; [reflexivity|]. split.
    + split.
      * intros [H | []]; discriminate.
      * intros Hs. rewrite (try_variant_skipped env _ Hs) in E1; discriminate.
    + left; reflexivity.
  - split; [repeat constructor; tauto|]. split; [reflexivity|]. split.
    + split.
      * intros [H | []]; discriminate.
      * intros Hs. rewrite (try_variant_skipped env _ Hs) in E1; discriminate.
    + left; reflexivity.
  - split; [repeat constructor; tauto|]. split; [reflexivity|]. split.
    + split; [intros _; exact K1 | intros _; right; left; reflexivity].
    + right; reflexivity.
  - split; [repeat constructor; tauto|]. split; [reflexivity|]. split.
    + split; [intros _; exact K1 | intros _; right; left; reflexivity].
    + right; reflexivity.
  - split.
    + destruct Ht as [-> | ->]; repeat constructor; tauto.
    + split; [reflexivity|]. split.
      * split; [intros _; exact K1 | intros _; right; left; reflexivity].
      * right; destruct Ht as [-> | ->]; reflexivity.
Qed.

(** ** What a deciding variant is reported with *)

Lemma invoked_is_a_variant (env : Env) (variant : list string) :
  invoked variant (events (check_ollama_cli env)) -> In variant try_variants.
Proof.
  unfold invoked, try_variants.
  destruct (check_ollama_cli_paths env)
    as [(r & E1 & ->) | [(e & E1 & ->) | [(r & K1 & E2 & ->)
       | [(e & K1 & E2 & ->) | (t & o & K1 & K2 & Ep & Ht & ->)]]]];
    cbn [events fst].
  - intros [[= <-] | []]; now left.
  - intros [[= <-] | []]; now left.
  - intros [[= <-] | [[= <-] | []]]; [now left | right; now left].
  - intros [[= <-] | [[= <-] | []]]; [now left | right; now left].
  - intros [[= <-] | [[= <-] | [H | H]]]; [now left | right; now left | discriminate |].
    destruct Ht as [-> | ->]; [destruct H | destruct H as [H | []]; discriminate].
Qed.

Lemma says_unknown_false (p : CompletedProcess) :
  (let text := PyStr.lower (PyStr.strip (stderr p)) in
   PyStr.contains "unknown command" text || PyStr.contains "unknown flag" text)
  = false ->
  ~ says_unknown p.
Proof.
  cbv zeta; unfold says_unknown; intros H K.
  rewrite <- !contains_spec in K. apply orb_false_elim in H.
  destruct H as [H1 H2], K as [K | K]; congruence.
Qed.

(** X3: when a variant that was run exits non-zero and its error output does
    not speak of an unknown command or flag, the service check returns at
    once the error "Exit code <n>: <stderr, trimmed>" under the name
    [ollama_cli]: the details contain the exit code in decimal and the
    trimmed error output. *)
Theorem nonzero_exit_is_reported_with_code_and_stderr
    (env : Env) (variant : list string) (p : CompletedProcess) :
  invoked variant (events (check_ollama_cli env)) ->
  ran env variant = Return p ->
  returncode p <> 0 ->
  ~ says_unknown p ->
  let details :=
    "Exit code " ++ PyStr.of_int (returncode p) ++ ": " ++ PyStr.strip (stderr p) in
  result (check_ollama_cli env) = Return (format_result "ollama_cli" false details)
  /\ PyStr.occurs_in (PyStr.of_int (returncode p)) details
  /\ PyStr.occurs_in (PyStr.strip (stderr p)) details
  /\ ends_with (run_of variant) (events (check_ollama_cli env)).
Proof.
  intros Hi Hr Hnz Hu; cbv zeta.
  destruct (invoked_variant_decides env variant _ Hi
              (try_variant_failed env variant p Hr Hnz Hu)) as (R & L & _).
  split; [exact R|]. split; [apply (occurs_in_middle "Exit code ")|].
  split; [|exact L].
  exists ("Exit code " ++ PyStr.of_int (returncode p) ++ ": "), EmptyString.
  now rewrite append_empty_r, !append_assoc.
Qed.

Lemma nonzero_exit_is_reported_with_code_and_stderr_witness :
  result (check_ollama_cli env_first_variant_fails)
  = Return (format_result "ollama_cli" false
              "Exit code 1: Error: could not connect to ollama app").
Proof.
  apply (nonzero_exit_is_reported_with_code_and_stderr env_first_variant_fails
           ["--version"]
           {| returncode := 1; stdout := EmptyString;
              stderr := "Error: could not connect to ollama app" |}).
  - left; reflexivity.
  - reflexivity.
  - discriminate.
  - apply says_unknown_false; reflexivity.
Defined.

(** X4: when running a variant raises, the service check tries nothing
    further.  It returns at once an error under the name [ollama_cli]: the
    fixed text "ollama CLI not found on PATH" for a [FileNotFoundError]
    (whatever its message), and "Command error: " followed by the
    exception's message for every other instance of [Exception], such as a
    [PermissionError].  An exception that is not an instance of [Exception]
    passes both handlers and leaves the check. *)
Theorem raised_run_is_reported
    (env : Env) (variant : list string) (e : exn) :
  invoked variant (events (check_ollama_cli env)) ->
  ran env variant = Raise e ->
  result (check_ollama_cli env)
  = (if isinstance e FileNotFoundError
     then Return (format_result "ollama_cli" false "ollama CLI not found on PATH")
     else if isinstance e Exception
     then Return (format_result "ollama_cli" false ("Command error: " ++ exn_str e))
     else Raise e)
  /\ ends_with (run_of variant) (events (check_ollama_cli env))
  /\ ~ http_probed (events (check_ollama_cli env)).
Proof.
  intros Hi Hr.
  destruct (isinstance e FileNotFoundError) eqn:Hc.
  - apply invoked_variant_decides; [exact Hi|].
    now apply (try_variant_missing env variant e).
  - destruct (isinstance e Exception) eqn:Ho.
    + apply invoked_variant_decides; [exact Hi|]. now apply try_variant_raised.
    + apply (invoked_variant_ends env variant (Raise e) Hi); [|discriminate].
      now apply try_variant_interrupted.
Qed.

Lemma raised_run_is_reported_witness :
  result (check_ollama_cli env_cli_not_executable)
  = Return (format_result "ollama_cli" false
              "Command error: [Errno 13] Permission denied: 'ollama'")
  /\ ends_with (run_of ["--version"]) (events (check_ollama_cli env_cli_not_executable))
  /\ ~ http_probed (events (check_ollama_cli env_cli_not_executable)).
Proof.
  apply (raised_run_is_reported env_cli_not_executable ["--version"] permission_denied).
  - left; reflexivity.
  - reflexivity.
Defined.

(** ** Trimming *)

Section StripFacts.

Import PyStr.

Lemma lstrip_head (s : string) :
  lstrip s = EmptyString
  \/ exists c r, lstrip s = String c r /\ isspace c = false.
Proof.
  induction s as [|c s IH]; cbn [lstrip]; [now left|].
  destruct (isspace c) eqn:Hc; [exact IH | right; now exists c, s].
Qed.

Lemma lstrip_fixed (c : ascii) (r : string) :
  isspace c = false -> lstrip (String c r) = String c r.
Proof. intros Hc; cbn [lstrip]; now rewrite Hc. Qed.

Lemma rstrip_keeps_head (c : ascii) (r : string) :
  isspace c = false -> exists r', rstrip (String c r) = String c r'.
Proof.
  intros Hc; cbn [rstrip]. destruct (rstrip r); [rewrite Hc|]; eauto.
Qed.

Lemma rstrip_idempotent (s : string) : rstrip (rstrip s) = rstrip s.
Proof.
  induction s as [|c s IH]; [reflexivity|]. cbn [rstrip].
  destruct (rstrip s) as [|d r] eqn:E.
  - destruct (isspace c) eqn:Hc; [reflexivity|]. cbn [rstrip]; now rewrite Hc.
  - change (rstrip (String c (String d r))) with
      (match rstrip (String d r) with
       | EmptyString => if isspace c then EmptyString else String c EmptyString
       | String a b => String c (String a b)
       end).
    now rewrite IH.
Qed.

(** Stripping twice is stripping once. *)
Lemma strip_idempotent (s : string) : strip (strip s) = strip s.
Proof.
  unfold strip. destruct (lstrip_head s) as [E | (c & r & E & Hc)]; rewrite E.
  - reflexivity.
  - destruct (rstrip_keeps_head c r Hc) as [r' E']; rewrite E'.
    rewrite (lstrip_fixed c r' Hc), <- E'. apply rstrip_idempotent.
Qed.

End StripFacts.

(** X5: the details of a successful CLI result are never empty and carry no
    leading or trailing whitespace, whatever the command printed. *)
Theorem successful_details_are_trimmed_and_not_empty
    (env : Env) (variant : list string) (p : CompletedProcess) :
  invoked variant (events (check_ollama_cli env)) ->
  ran env variant = Return p ->
  returncode p = 0 ->
  exists details,
    result (check_ollama_cli env) = Return (format_result "ollama_cli" true details)
    /\ details <> EmptyString
    /\ trimmed details.
Proof.
  intros Hi Hr Hz. exists (success_details variant p). split.
  - refine (proj1 (invoked_variant_decides env variant _ Hi _)).
    rewrite (try_variant_exit_zero env variant p Hr Hz).
    now rewrite strip_or_is_trimmed_output, or_is_success_details.
  - unfold success_details, trimmed.
    destruct (trimmed_output p) as [|c t] eqn:E.
    + apply invoked_is_a_variant in Hi.
      destruct Hi as [<- | [<- | []]]; split; (discriminate || reflexivity).
    + split; [discriminate|]. rewrite <- E.
      unfold trimmed_output; destruct (stdout p); apply strip_idempotent.
Qed.

Lemma successful_details_are_trimmed_and_not_empty_witness :
  exists details,
    result (check_ollama_cli env_silent_cli)
    = Return (format_result "ollama_cli" true details)
    /\ details <> EmptyString
    /\ trimmed details.
Proof.
  apply (successful_details_are_trimmed_and_not_empty env_silent_cli ["--version"]
           {| returncode := 0; stdout := EmptyString; stderr := EmptyString |}).
  - left; reflexivity.
  - reflexivity.
  - reflexivity.
Defined.

(** ** The HTTP probe *)

(** X6: an exception that reaches the HTTP probe, from the request or from
    reading the response, is turned into an error result by its class: an
    [HTTPError] (itself a [URLError]) is reported with its code and reason,
    any other [URLError] as a connection error with its reason, and any
    other instance of [Exception] as "HTTP probe error: " followed by its
    message.  An exception that is not an instance of [Exception] passes
    the three handlers and leaves the probe. *)
Theorem http_probe_failure_by_class (env : Env) (e : exn) :
  probe_fault env e ->
  result (_probe_ollama_http env)
  = (if isinstance e HTTPError
     then Return (format_result "ollama_http" false
                    ("HTTP error @ /api/version: " ++ PyStr.of_int (exn_code e)
                     ++ " " ++ exn_reason e))
     else if isinstance e URLError
     then Return (format_result "ollama_http" false
                    ("HTTP connection error to http://localhost:11434: "
                     ++ exn_reason e))
     else if isinstance e Exception
     then Return (format_result "ollama_http" false
                    ("HTTP probe error: " ++ exn_str e))
     else Raise e).
Proof.
  unfold probe_fault, ollama_url, _probe_ollama_http, call.
  intros [H | (resp & H & Hread)]; rewrite H;
    cbn [bind try_except find fst snd ret app]; [|rewrite Hread];
    cbn [bind try_except find fst snd ret app];
    (destruct (isinstance e HTTPError); [reflexivity|]);
    (destruct (isinstance e URLError); [reflexivity|]);
    destruct (isinstance e Exception); reflexivity.
Qed.

Lemma http_probe_failure_by_class_witness :
  result (_probe_ollama_http env_http_down)
  = Return (format_result "ollama_http" false
              "HTTP connection error to http://localhost:11434: [Errno 111] Connection refused").
Proof.
  apply (http_probe_failure_by_class env_http_down connection_refused).
  left; reflexivity.
Defined.

(** X7: a response that is opened and read makes the probe succeed whatever
    its status code: the result is "ok" under the name [ollama_http], with
    the status, the reason and the trimmed body in the details, and "OK" in
    place of a body that is empty or blank. *)
Theorem http_probe_success (env : Env) (resp : HTTPResponse) (body : string) :
  urlopen env ollama_url 5 = Return resp ->
  resp_read resp = Return body ->
  _probe_ollama_http env
  = ([EvHttpGet ollama_url; EvHttpRead],
     Return (format_result "ollama_http" true
               ("HTTP " ++ PyStr.of_int (resp_status resp) ++ " " ++ resp_reason resp
                ++ " @ /api/version: "
                ++ match PyStr.strip body with
                   | EmptyString => "OK"
                   | text => text
                   end))).
Proof.
  unfold ollama_url, _probe_ollama_http, call; intros H Hread.
  rewrite H; cbn [bind try_except ret app]. rewrite Hread; cbn [bind try_except ret app].
  now destruct (PyStr.strip body).
Qed.

Lemma http_probe_success_witness :
  _probe_ollama_http
    (with_http (Return {| resp_status := 204; resp_reason := "No Content";
                          resp_read := Return "
" |}) env_healthy)
  = ([EvHttpGet ollama_url; EvHttpRead],
     Return (format_result "ollama_http" true
               "HTTP 204 No Content @ /api/version: OK")).
Proof.
  apply (http_probe_success
           (with_http (Return {| resp_status := 204; resp_reason := "No Content";
                                 resp_read := Return "
" |}) env_healthy)
           {| resp_status := 204; resp_reason := "No Content"; resp_read := Return "
" |} "
"); reflexivity.
Defined.

(** ** The database check, step by step *)

(** The calls of [check_sqlite], read off the environment. *)
Lemma check_sqlite_log (env : Env) :
  events (check_sqlite env)
  = EvSqlConnect ":memory:"
    :: match sqlite3_connect env ":memory:" with
       | Raise _ => []
       | Return _ =>
         EvSqlExecute sql_create
         :: match sqlite3_execute env sql_create [] with
            | Raise _ => [EvSqlRollback]
            | Return _ =>
              EvSqlExecute sql_insert
              :: match sqlite3_execute env sql_insert [SqlText "ok"] with
                 | Raise _ => [EvSqlRollback]
                 | Return _ =>
                   EvSqlExecute sql_select
                   :: match sqlite3_execute env sql_select [] with
                      | Raise _ => [EvSqlRollback]
                      | Return cur =>
                        EvSqlFetchone
                        :: match fetchone cur with
                           | Raise _ | Return (Some []) => [EvSqlRollback]
                           | Return _ =>
                               EvSqlCommit
                               :: match sqlite3_commit env with
                                  | Return _ => []
                                  | Raise _ => [EvSqlRollback]
                                  end
                           end
                      end
                 end
            end
       end.
Proof.
  rewrite check_sqlite_eq; cbv zeta.
  destruct (sqlite3_connect env ":memory:") as [[]|e0]; [|reflexivity].
  destruct (sqlite3_execute env sql_create []) as [c1|e1]; [|reflexivity].
  destruct (sqlite3_execute env sql_insert [SqlText "ok"]) as [c2|e2]; [|reflexivity].
  destruct (sqlite3_execute env sql_select []) as [cur|e3]; [|reflexivity].
  destruct (fetchone cur) as [[[|v row]|]|e4]; try reflexivity;
    destruct (sqlite3_commit env) as [[]|ec]; reflexivity.
Qed.

(** X8: when the sequence runs without an exception but the query fetches
    no row, or a row whose value is anything but the text "ok" (the
    comparison is exact: another case, another type, NULL), nothing was
    raised, so the block is left through its commit.  When the commit
    succeeds, the database check returns the error "Unexpected query
    result" and the commit is the last thing it did.  When the commit
    raises, a rollback follows and the exception that leaves the block (the
    commit's, or the rollback's own) meets the handler like any other. *)
Theorem unexpected_query_result
    (env : Env) (row : option (list sql_value)) :
  store_outcome env (Return row) ->
  row = None \/ (exists v rest, row = Some (v :: rest) /\ v <> SqlText "ok") ->
  In EvSqlCommit (events (check_sqlite env))
  /\ (sqlite3_commit env = Return tt ->
      result (check_sqlite env)
      = Return (format_result "sqlite" false "Unexpected query result")
      /\ ends_with EvSqlCommit (events (check_sqlite env)))
  /\ (forall e, sqlite3_commit env = Raise e ->
        result (check_sqlite env)
        = (let leaving := after_rollback env e in
           if isinstance leaving Exception
           then Return (format_result "sqlite" false
                          ("SQLite error: " ++ exn_str leaving))
           else Raise leaving)
        /\ ends_with EvSqlRollback (events (check_sqlite env))).
Proof.
  intros H Hrow.
  assert (L : exists tail,
             events (check_sqlite env)
             = ([ EvSqlConnect ":memory:"; EvSqlExecute sql_create;
                  EvSqlExecute sql_insert; EvSqlExecute sql_select; EvSqlFetchone;
                  EvSqlCommit ] ++ tail)%list
             /\ tail = match sqlite3_commit env with
                       | Return _ => []
                       | Raise _ => [EvSqlRollback]
                       end).
  { rewrite check_sqlite_log.
    inversion H as [| | | | c1 c2 cur H0 H1 H2 H3 Hf]; rewrite H0, H1, H2, H3, Hf.
    eexists; split; [|reflexivity].
    destruct Hrow as [-> | (v & rest & -> & _)]; reflexivity. }
  destruct L as (tail & L & Ht).
  pose proof (check_sqlite_result env _ H) as E; cbv zeta in E.
  assert (B : match row with
              | Some (v :: _) => sql_eq_text v "ok"
              | _ => false
              end = false).
  { destruct Hrow as [-> | (v & rest & -> & Hv)]; [reflexivity|].
    destruct (sql_eq_text v "ok") eqn:Ev; [|reflexivity].
    apply sql_eq_text_spec in Ev; contradiction. }
  assert (LB : leaving_block env (Return row)
               = match sqlite3_commit env with
                 | Return _ => None
                 | Raise e => Some (after_rollback env e)
                 end).
  { destruct Hrow as [-> | (v & rest & -> & _)]; reflexivity. }
  rewrite LB, B in E. rewrite L. split; [cbn; tauto|]. split.
  - intros Hc; rewrite Hc in E, Ht; subst tail. split; [exact E|].
    eexists; rewrite app_nil_r.
    change [EvSqlConnect ":memory:"; EvSqlExecute sql_create; EvSqlExecute sql_insert;
            EvSqlExecute sql_select; EvSqlFetchone; EvSqlCommit]
      with ([EvSqlConnect ":memory:"; EvSqlExecute sql_create; EvSqlExecute sql_insert;
             EvSqlExecute sql_select; EvSqlFetchone] ++ [EvSqlCommit])%list.
    reflexivity.
  - intros e Hc; rewrite Hc in E, Ht; subst tail. split; [exact E|].
    now eexists.
Qed.

Lemma unexpected_query_result_witness :
  result (check_sqlite
            (with_sqlite (Return tt)
               (fun _ _ => Return {| fetchone := Return (Some [SqlText "OK"]) |})
               env_healthy))
  = Return (format_result "sqlite" false "Unexpected query result").
Proof.
  refine (proj1 (proj1 (proj2 (unexpected_query_result
           (with_sqlite (Return tt)
              (fun _ _ => Return {| fetchone := Return (Some [SqlText "OK"]) |})
              env_healthy)
           (Some [SqlText "OK"]) _ _)) eq_refl)).
  - apply (select_fetches _ {| fetchone := Return (Some [SqlText "OK"]) |}
             {| fetchone := Return (Some [SqlText "OK"]) |}
             {| fetchone := Return (Some [SqlText "OK"]) |}); reflexivity.
  - right; exists (SqlText "OK"), []; split; [reflexivity | discriminate].
Defined.

(** X9: the database check opens the store [:memory:] first and no other;
    the statements it executes are the first few of CREATE, INSERT, SELECT,
    in that order; a statement is executed only if the one before it
    succeeded; and nothing is executed when the store cannot be opened. *)
Theorem sqlite_statements_in_order (env : Env) :
  let log := events (check_sqlite env) in
  hd_error log = Some (EvSqlConnect ":memory:")
  /\ (forall database, In (EvSqlConnect database) log -> database = ":memory:")
  /\ (exists n, executed log = firstn n [sql_create; sql_insert; sql_select])
  /\ (forall e, sqlite3_connect env ":memory:" = Raise e -> executed log = [])
  /\ (In sql_insert (executed log) ->
      exists c, sqlite3_execute env sql_create [] = Return c)
  /\ (In sql_select (executed log) ->
      exists c, sqlite3_execute env sql_insert [SqlText "ok"] = Return c)
  /\ (In EvSqlFetchone log ->
      exists cur, sqlite3_execute env sql_select [] = Return cur).
Proof.
  cbv zeta; rewrite check_sqlite_log.
  split; [reflexivity|].
  destruct (sqlite3_connect env ":memory:") as [[]|e0].
  2:{ split; [intros db [[= <-] | []]; reflexivity|].
      split; [now exists 0%nat|]. split; [reflexivity|].
      cbn; repeat split; intros H; repeat (destruct H as [H | H]; try discriminate);
        destruct H. }
  destruct (sqlite3_execute env sql_create []) as [c1|e1].
  2:{ split; [intros db H; cbn in H;
               repeat (destruct H as [H | H]; try discriminate);
               [now injection H as <- | destruct H]|].
      split; [now exists 1%nat|]. split; [intros e; discriminate|].
      cbn; repeat split; intros H; repeat (destruct H as [H | H]; try discriminate);
        destruct H. }
  destruct (sqlite3_execute env sql_insert [SqlText "ok"]) as [c2|e2].
  2:{ split; [intros db H; cbn in H;
               repeat (destruct H as [H | H]; try discriminate);
               [now injection H as <- | destruct H]|].
      split; [now exists 2%nat|]. split; [intros e; discriminate|].
      split; [intros _; now exists c1|].
      cbn; repeat split; intros H; repeat (destruct H as [H | H]; try discriminate);
        destruct H. }
  destruct (sqlite3_execute env sql_select []) as [cur|e3].
  2:{ split; [intros db H; cbn in H;
               repeat (destruct H as [H | H]; try discriminate);
               [now injection H as <- | destruct H]|].
      split; [now exists 3%nat|]. split; [intros e; discriminate|].
      split; [intros _; now exists c1|]. split; [intros _; now exists c2|].
      cbn; intros H; repeat (destruct H as [H | H]; try discriminate); destruct H. }
  split.
  - intros db H; destruct (fetchone cur) as [[[|v row]|]|e4];
      try destruct (sqlite3_commit env) as [[]|ec]; cbn in H;
      repeat (destruct H as [H | H]; try discriminate);
      solve [now injection H as <- | destruct H].
  - split; [exists 3%nat; destruct (fetchone cur) as [[[|v row]|]|e4];
            try destruct (sqlite3_commit env) as [[]|ec]; reflexivity|].
    split; [intros e; discriminate|].
    split; [intros _; now exists c1|]. split; [intros _; now exists c2|].
    intros _; now exists cur.
Qed.

(** ** The whole run *)

Section RunFacts.

Variable env : Env.








End RunFacts.







(** ** The printed text *)

Section JsonFacts.

Import Json.

Lemma all_chars_app (test : ascii -> bool) (a b : string) :
  all_chars test (a ++ b) = all_chars test a && all_chars test b.
Proof.
  induction a as [|c a IH]; cbn [all_chars append]; [reflexivity|].
  now rewrite IH, andb_assoc.
Qed.

Lemma all_chars_weaken (p q : ascii -> bool) (s : string) :
  (forall c, p c = true -> q c = true) ->
  all_chars p s = true -> all_chars q s = true.
Proof.
  intros Hpq; induction s as [|c s IH]; cbn [all_chars]; [reflexivity|].
  rewrite !andb_true_iff; intros [A B]; split; auto.
Qed.

Lemma hex_digit_printable (n : N) : (n < 16)%N -> printable (hex_digit n) = true.
Proof.
  intros H. destruct n as [|p]; [reflexivity|].
  do 4 (destruct p as [p|p|]; try reflexivity; try lia).
Qed.

Lemma unicode_escape_printable (n : N) :
  all_chars printable (unicode_escape n) = true.
Proof.
  unfold unicode_escape, hex4; cbn [all_chars append].
  rewrite !hex_digit_printable by (apply N.mod_lt; discriminate). reflexivity.
Qed.

(** Whatever the code point, its escape is printable ASCII. *)
Lemma escape_point_printable (n : N) : all_chars printable (escape_point n) = true.
Proof.
  unfold escape_point.
  repeat (match goal with
          | |- context [(n =? ?k)%N] => destruct (n =? k)%N; [reflexivity|]
          end).
  destruct ((32 <=? n) && (n <=? 126))%N eqn:R.
  - apply andb_true_iff in R; destruct R as [A B].
    apply N.leb_le in A, B. cbn [all_chars]; unfold printable.
    rewrite N_ascii_embedding by lia. cbv zeta.
    apply N.leb_le in A, B. now rewrite A, B.
  - destruct (n <? 65536)%N; [apply unicode_escape_printable|].
    cbv zeta. now rewrite all_chars_app, !unicode_escape_printable.
Qed.

Lemma escape_char_printable (c : ascii) :
  all_chars printable (escape_char c) = true.
Proof. apply escape_point_printable. Qed.

Lemma escape_printable (s : string) : all_chars printable (escape s) = true.
Proof.
  induction s as [|c s IH]; [reflexivity|]. cbn [escape].
  now rewrite all_chars_app, escape_char_printable, IH.
Qed.

Lemma encode_string_printable (s : string) :
  all_chars printable (encode_string s) = true.
Proof.
  unfold encode_string; cbn [all_chars].
  now rewrite all_chars_app, escape_printable.
Qed.

Lemma spaces_printable (n : nat) : all_chars printable (spaces n) = true.
Proof. induction n as [|n IH]; [reflexivity | exact IH]. Qed.

Let safe (s : string) : Prop := all_chars printable_or_newline s = true.

Lemma printable_is_safe (s : string) : all_chars printable s = true -> safe s.
Proof.
  apply all_chars_weaken; intros c H; unfold printable_or_newline; now rewrite H.
Qed.

Lemma safe_app (a b : string) : safe a -> safe b -> safe (a ++ b).
Proof. unfold safe; intros A B; now rewrite all_chars_app, A, B. Qed.

Lemma newline_indent_safe (indent level : nat) : safe (newline_indent indent level).
Proof.
  unfold newline_indent. change (safe (String newline EmptyString ++ spaces (indent * level))).
  apply safe_app; [reflexivity | apply printable_is_safe, spaces_printable].
Qed.

Lemma concat_safe (sep : string) (parts : list string) :
  safe sep -> Forall safe parts -> safe (String.concat sep parts).
Proof.
  intros Hsep H; induction H as [|x parts Hx Hparts IH]; [reflexivity|].
  cbn [String.concat]. destruct parts as [|y parts]; [exact Hx|].
  apply safe_app; [exact Hx|]. apply safe_app; [exact Hsep | exact IH].
Qed.

(** Induction on JSON values, through the lists they nest in. *)
Section ValueInduction.

Variable P : value -> Prop.
Hypothesis HStr : forall s, P (Str s).
Hypothesis HArr : forall items, Forall P items -> P (Arr items).
Hypothesis HObj :
  forall members, Forall (fun kv => P (snd kv)) members -> P (Obj members).

Fixpoint value_induction (v : value) : P v :=
  match v with
  | Str s => HStr s
  | Arr items =>
      HArr items
        ((fix all (l : list value) : Forall P l :=
            match l with
            | [] => Forall_nil P
            | x :: l' => Forall_cons x (value_induction x) (all l')
            end) items)
  | Obj members =>
      HObj members
        ((fix all (l : list (string * value)) : Forall (fun kv => P (snd kv)) l :=
            match l with
            | [] => Forall_nil _
            | kv :: l' =>
                @Forall_cons _ (fun kv => P (snd kv)) kv l'
                  (value_induction (snd kv)) (all l')
            end) members)
  end.

End ValueInduction.

Lemma encode_safe (indent : nat) (v : value) :
  forall level, safe (encode indent level v).
Proof.
  induction v as [s | items IH | members IH] using value_induction; intros level.
  - apply printable_is_safe, encode_string_printable.
  - destruct items as [|x items]; [reflexivity|].
    change (safe ("[" ++ newline_indent indent (S level)
                  ++ String.concat ("," ++ newline_indent indent (S level))
                       (map (encode indent (S level)) (x :: items))
                  ++ newline_indent indent level ++ "]")).
    repeat apply safe_app; try reflexivity; try apply newline_indent_safe.
    apply concat_safe; [apply safe_app; [reflexivity | apply newline_indent_safe]|].
    apply Forall_map. eapply Forall_impl; [|exact IH]. intros a Ha; apply Ha.
  - destruct members as [|kv members]; [reflexivity|].
    change (safe ("{" ++ newline_indent indent (S level)
                  ++ String.concat ("," ++ newline_indent indent (S level))
                       (map (fun kv => encode_string (fst kv) ++ ": "
                                       ++ encode indent (S level) (snd kv))
                            (kv :: members))
                  ++ newline_indent indent level ++ "}")).
    repeat apply safe_app; try reflexivity; try apply newline_indent_safe.
    apply concat_safe; [apply safe_app; [reflexivity | apply newline_indent_safe]|].
    apply Forall_map. eapply Forall_impl; [|exact IH]. intros a Ha; cbv beta.
    apply safe_app; [apply printable_is_safe, encode_string_printable|].
    apply safe_app; [reflexivity | apply Ha].
Qed.

End JsonFacts.

(** X14: whatever a run logged, and so whatever the names, versions and
    error messages hold, the text written to standard output consists of
    printable ASCII characters (space to tilde) and line breaks only. *)
Theorem stdout_is_printable_ascii (log : list event) :
  all_chars printable_or_newline (stdout_of log) = true.
Proof.
  unfold stdout_of. apply concat_safe; [reflexivity|].
  apply Forall_map, Forall_forall; intros report _.
  unfold print_report, Json.dumps.
  rewrite all_chars_app, (encode_safe 2 (report_value report) 0); reflexivity.
Qed.

(** ** The layout of the printed report *)

Section LayoutFacts.

Import Json.


Lemma printable_has_no_newline (s : string) :
  all_chars printable s = true -> count_char newline s = 0%nat.
Proof.
  induction s as [|c s IH]; cbn [all_chars count_char]; [reflexivity|].
  rewrite andb_true_iff; intros [Hc Hs]. rewrite (IH Hs).
  destruct (Ascii.eqb_spec newline c) as [<-|]; [discriminate Hc | reflexivity].
Qed.

Lemma escape_has_no_newline (s : string) : count_char newline (escape s) = 0%nat.
Proof. apply printable_has_no_newline, escape_printable. Qed.






End LayoutFacts.




(** ** The version gate is monotone *)

Lemma python_status_ok_iff (env : Env) :
  (exists r, result (check_python env) = Return r /\ status_ok r)
  <-> at_least_3_9 (version_info env).
Proof.
  unfold check_python, status_ok; cbv zeta; cbn [result snd ret].
  pose proof (tuple_ge_3_9 (version_info env)) as T.
  destruct (tuple_ge (as_tuple (version_info env)) [3; 9]).
  - split; [intros _; now apply T | intros _; eexists; split; reflexivity].
  - split; [intros (r & [= <-] & S); discriminate S|].
    intros K; apply T in K; discriminate.
Qed.

(** X18: the runtime check is monotone in the interpreter version: if it
    reports "ok" for one interpreter, it reports "ok" for every interpreter
    whose version tuple is at least as large, so an upgrade never turns the
    [python] entry into an error. *)
Theorem newer_python_stays_ok (env env' : Env) :
  tuple_ge (as_tuple (version_info env')) (as_tuple (version_info env)) = true ->
  (exists r, result (check_python env) = Return r /\ status_of r = Some "ok") ->
  exists r', result (check_python env') = Return r' /\ status_of r' = Some "ok".
Proof.
  intros Hge Hok. apply python_status_ok_iff. apply python_status_ok_iff in Hok.
  unfold at_least_3_9 in *; unfold as_tuple in Hge; cbn [tuple_ge] in Hge.
  destruct (Z.eqb_spec (major (version_info env')) (major (version_info env)));
    [|apply Z.ltb_lt in Hge; lia].
  destruct (Z.eqb_spec (minor (version_info env')) (minor (version_info env)));
    [|apply Z.ltb_lt in Hge; lia].
  lia.
Qed.

Lemma newer_python_stays_ok_witness :
  exists r',
    result (check_python (with_version (cpython 3 13 0) "3.13.0" env_healthy))
    = Return r'
    /\ status_of r' = Some "ok".
Proof.
  apply (newer_python_stays_ok env_healthy
           (with_version (cpython 3 13 0) "3.13.0" env_healthy)).
  - reflexivity.
  - eexists; split; reflexivity.
Defined.
